(** * image-converter: the pixel pipeline of the image conversion services

    A shallow embedding of
      - app/services/image-optimizer.service.ts
      - app/services/image-processor.service.ts
      - app/strategies/*.strategy.ts and the strategy factory
      - app/types/image.types.ts
    JavaScript numbers are IEEE-754 binary64 values, so they are modelled by
    Rocq's primitive floats, which are the same format with the same
    rounding; a [Uint8ClampedArray] is a [list byte]. *)

From Stdlib Require Import ZArith List Bool Lia Ascii String.
From Stdlib.Strings Require Import Byte.
From Stdlib Require Import Floats.
From stdpp Require Import base option list.
Set Warnings "-inexact-float".
Local Open Scope Z_scope.

(* ===================================================================== *)
(** ** JavaScript numbers *)
(* ===================================================================== *)

Module JS.

(** An integer as a JS number (exact below 2^53). *)
Definition of_Z (z : Z) : float :=
  if z <? 0 then (- of_uint63 (Uint63.of_Z (- z)))%float
  else of_uint63 (Uint63.of_Z z).

Definition of_nat (n : nat) : float := of_Z (Z.of_nat n).

(** [Math.round]: the integer nearest to [x], ties towards +infinity;
    NaN, the infinities and the zeros are returned as they are, and a
    negative argument that rounds to zero gives -0.  A finite non-zero
    [x] is [(-1)^s * m * 2^e] exactly, so the rounding is done on
    integers: floor (x + 1/2) = floor ((2 n + 2^k) / 2^(k+1)) for
    x = n / 2^k. *)
Definition Math_round (x : float) : float :=
  match Prim2SF x with
  | S754_finite s m e =>
      if 0 <=? e then x
      else
        let k := - e in
        let n := if s then Z.neg m else Z.pos m in
        let r := (2 * n + 2 ^ k) / 2 ^ (k + 1) in
        if r =? 0 then (if s then neg_zero else zero) else of_Z r
  | _ => x
  end.

(** [Math.min] and [Math.max]: NaN if an argument is NaN, and -0 is
    smaller than +0. *)
Definition Math_min (a b : float) : float :=
  if is_nan a || is_nan b then nan
  else if (a <? b)%float then a
  else if (b <? a)%float then b
  else if get_sign a then a else b.

Definition Math_max (a b : float) : float :=
  if is_nan a || is_nan b then nan
  else if (a <? b)%float then b
  else if (b <? a)%float then a
  else if get_sign a then b else a.

Definition Math_abs (x : float) : float := abs x.

(** Truthiness of a number: every number but NaN, +0 and -0. *)
Definition truthy (x : float) : bool := negb (is_nan x || is_zero x).

(** The integer part of a finite number (truncation towards zero); 0 for
    NaN and the infinities, as in the ToUint32 conversion. *)
Definition truncate (x : float) : Z :=
  match Prim2SF x with
  | S754_finite s m e =>
      let a := if 0 <=? e then Z.pos m * 2 ^ e else Z.pos m / 2 ^ (- e) in
      if s then - a else a
  | _ => 0
  end.

(** WebIDL [unsigned long] conversion, used when a number is assigned to
    [canvas.width] or [canvas.height]. *)
Definition ToUint32 (x : float) : Z := truncate x mod 2 ^ 32.

(** The byte with a given value (values are taken modulo 256; every use
    below passes a value in 0..255). *)
Definition byte_of_Z (z : Z) : byte :=
  match Byte.of_N (Z.to_N (z mod 256)) with
  | Some b => b
  | None => x00
  end.

Definition Z_of_byte (b : byte) : Z := Z.of_N (Byte.to_N b).

(** The conversion a [Uint8ClampedArray] applies to a stored number
    (ToUint8Clamp): NaN gives 0, the value is clamped to 0..255 and
    rounded to the nearest integer, ties to the even one. *)
Definition ToUint8Clamp (x : float) : byte :=
  if is_nan x then x00
  else if (x <=? 0)%float then x00
  else if (255 <=? x)%float then xff
  else
    match Prim2SF x with
    | S754_finite _ m e =>
        if 0 <=? e then byte_of_Z (Z.pos m * 2 ^ e)
        else
          let k := - e in
          let f := Z.pos m / 2 ^ k in
          match (2 * (Z.pos m mod 2 ^ k)) ?= 2 ^ k with
          | Lt => byte_of_Z f
          | Gt => byte_of_Z (f + 1)
          | Eq => if Z.even f then byte_of_Z f else byte_of_Z (f + 1)
          end
    | _ => x00
    end.

(** ASCII lower-casing, the part of [String.prototype.toLowerCase] that
    can produce an ASCII key. *)
Definition lower_ascii (c : ascii) : ascii :=
  let n := nat_of_ascii c in
  if ((65 <=? n) && (n <=? 90))%nat then ascii_of_nat (n + 32) else c.

Fixpoint toLowerCase (s : string) : string :=
  match s with
  | EmptyString => EmptyString
  | String c s' => String (lower_ascii c) (toLowerCase s')
  end.

(** [s.startsWith(p)]. *)
Definition startsWith (s p : string) : bool := String.prefix p s.

(** [s.split(c)]: the segments of [s] between occurrences of [c]; never
    empty (a string without [c] is its own single segment). *)
Fixpoint split (c : ascii) (s : string) : list string :=
  match s with
  | EmptyString => [EmptyString]
  | String d s' =>
      if Ascii.eqb d c then EmptyString :: split c s'
      else
        match split c s' with
        | seg :: segs => String d seg :: segs
        | [] => [String d EmptyString]
        end
  end.

(** [a.pop()] as a value: the last element, [None] for [undefined]. *)
Definition pop {A} (a : list A) : option A := last a.

(** The own and inherited string-keyed properties of [Object.prototype],
    which every object literal inherits; the [in] operator sees them. *)
Definition Object_prototype_keys : list string :=
  [ "constructor"; "hasOwnProperty"; "isPrototypeOf";
    "propertyIsEnumerable"; "toLocaleString"; "toString"; "valueOf";
    "__proto__"; "__defineGetter__"; "__defineSetter__";
    "__lookupGetter__"; "__lookupSetter__" ]%string.

Definition mem_string (k : string) (l : list string) : bool :=
  existsb (String.eqb k) l.

(** [key in obj] for an object literal with the given own keys: the
    operator walks the prototype chain. *)
Definition js_in (key : string) (own_keys : list string) : bool :=
  mem_string key own_keys || mem_string key Object_prototype_keys.

End JS.

(* ===================================================================== *)
(** ** Uint8ClampedArray *)
(* ===================================================================== *)

Module U8.

(** [data[i]] read as a number: [undefined] out of range, which every
    arithmetic use below converts to NaN. *)
Definition get (data : list byte) (i : nat) : float :=
  match data !! i with
  | Some b => JS.of_Z (JS.Z_of_byte b)
  | None => nan
  end.

(** [data[i] = x]: clamped and rounded; a store out of range is ignored
    (stdpp's list insert does nothing there, like a typed array). *)
Definition set (data : list byte) (i : nat) (x : float) : list byte :=
  <[ i := JS.ToUint8Clamp x ]> data.

(** The values of [i] taken by [for (let i = 0; i < bound; i += 4)]. *)
Definition step4 (bound : Z) : list nat :=
  List.map (fun k => (4 * k)%nat) (seq 0 (Z.to_nat ((bound + 3) / 4))).

(** [for (let i = 0; i < bound; i += 4) body(i)] on a mutable state. *)
Definition for_step4 {S} (bound : Z) (body : nat -> S -> S) (s : S) : S :=
  fold_left (fun st i => body i st) (step4 bound) s.

Definition length (data : list byte) : Z := Z.of_nat (List.length data).

End U8.

(* ===================================================================== *)
(** ** app/types/image.types.ts *)
(* ===================================================================== *)

Inductive ImageFormat := JPEG | PNG | WEBP | AVIF | GIF | BMP.

(** The value of each member of the string enum. *)
Definition mime (f : ImageFormat) : string :=
  match f with
  | JPEG => "image/jpeg" | PNG => "image/png" | WEBP => "image/webp"
  | AVIF => "image/avif" | GIF => "image/gif" | BMP => "image/bmp"
  end.

(** [IMAGE_EXTENSIONS], an object literal: own keys in source order. *)
Definition IMAGE_EXTENSIONS : list (string * ImageFormat) :=
  [ ("jpg", JPEG); ("jpeg", JPEG); ("png", PNG); ("webp", WEBP);
    ("avif", AVIF); ("gif", GIF); ("bmp", BMP) ]%string.

Record ProcessingOptions := {
  targetFormat : ImageFormat;
  quality : float;
  optimize : bool;
  maxWidth : option float;
  maxHeight : option float;
  maintainAspectRatio : bool
}.

(* ===================================================================== *)
(** ** The platform: files, bitmaps, canvases *)
(* ===================================================================== *)

Record File := {
  file_name : string;
  file_type : string;
  file_size : float;
  file_bytes : list byte
}.

(** An [ImageBitmap].  [close()] detaches it: its width and height read 0
    from then on and drawing it throws. *)
Record ImageBitmap := {
  bm_width : Z;
  bm_height : Z;
  bm_data : list byte;
  bm_detached : bool
}.

Definition closed_bitmap : ImageBitmap :=
  {| bm_width := 0; bm_height := 0; bm_data := []; bm_detached := true |}.

(** A canvas with its 2D backing store, RGBA, row-major. *)
Record Canvas := {
  cv_width : Z;
  cv_height : Z;
  cv_data : list byte
}.

(** Bitmaps are objects: the program holds references to them, and a
    callee can close the one it is given.  The heap maps a reference to the
    current state of its bitmap. *)
Definition loc := nat.
Definition heap := list ImageBitmap.

Inductive outcome (A : Type) : Type :=
| Ok (a : A) (h : heap)
| Throw (msg : string).
Arguments Ok {A} a h.
Arguments Throw {A} msg.

(** Computations on the heap that may throw. *)
Definition M (A : Type) : Type := heap -> outcome A.

Definition ret {A} (a : A) : M A := fun h => Ok a h.
Definition throw {A} (msg : string) : M A := fun _ => Throw msg.
Definition bind {A B} (m : M A) (k : A -> M B) : M B :=
  fun h => match m h with
           | Ok a h' => k a h'
           | Throw msg => Throw msg
           end.

Notation "'let*' x ':=' m 'in' k" := (bind m (fun x => k))
  (at level 10, x name, m at level 100, k at level 200).
Notation "m ';;' k" := (bind m (fun _ => k))
  (at level 100, k at level 200, right associativity).

(** Reading a field of the bitmap behind a reference. *)
Definition deref (l : loc) : M ImageBitmap :=
  fun h => match h !! l with
           | Some bm => Ok bm h
           | None => Throw "TypeError: not an ImageBitmap"
           end.

Definition width_of (l : loc) : M Z := let* bm := deref l in ret (bm_width bm).
Definition height_of (l : loc) : M Z := let* bm := deref l in ret (bm_height bm).

(** A fresh bitmap object. *)
Definition alloc (bm : ImageBitmap) : M loc :=
  fun h => Ok (List.length h) (h ++ [bm]).

(** [bitmap.close()]. *)
Definition close (l : loc) : M unit :=
  fun h => Ok tt (<[ l := closed_bitmap ]> h).

(** [document.createElement('canvas')] followed by the two size stores. *)
Definition new_canvas (w h : Z) : Canvas :=
  {| cv_width := w; cv_height := h;
     cv_data := repeat x00 (Z.to_nat (4 * w * h)) |}.

(** [ctx.drawImage(bitmap, 0, 0)] on a fresh canvas of the bitmap's size:
    the canvas then holds the bitmap's pixels.  Drawing a detached bitmap
    throws. *)
Definition drawImage (c : Canvas) (bm : ImageBitmap) : M Canvas :=
  if bm_detached bm then throw "InvalidStateError: the image source is detached"
  else ret {| cv_width := cv_width c; cv_height := cv_height c;
              cv_data := bm_data bm |}.

(** [ctx.getImageData(0, 0, sw, sh)] for [sw <= width], [sh <= height]: the
    top-left rectangle, row by row; an empty rectangle is an
    IndexSizeError. *)
Definition getImageData (c : Canvas) (sw sh : Z) : M (list byte) :=
  if (sw =? 0) || (sh =? 0)
  then throw "IndexSizeError: the source width or height is 0"
  else ret (flat_map
              (fun y => take (Z.to_nat (4 * sw))
                          (drop (4 * y * Z.to_nat (cv_width c)) (cv_data c)))
              (seq 0 (Z.to_nat sh))).

(** [ctx.getImageData(0, 0, canvas.width, canvas.height)], a mutation of
    the returned array, and [ctx.putImageData(imageData, 0, 0)]: the whole
    backing store is read, transformed and written back. *)
Definition update_image_data (f : list byte -> list byte) (c : Canvas)
  : M Canvas :=
  if (cv_width c =? 0) || (cv_height c =? 0)
  then throw "IndexSizeError: the source width or height is 0"
  else ret {| cv_width := cv_width c; cv_height := cv_height c;
              cv_data := f (cv_data c) |}.

(** What the browser supplies.  [Blob] is the type of encoded images. *)
Record Platform (Blob : Type) := {
  (** [createImageBitmap(file)]; [None] when the promise is rejected *)
  createImageBitmap : File -> option ImageBitmap;
  (** whether [canvas.getContext('2d')] returns a context *)
  getContext : Canvas -> bool;
  (** [canvas.toBlob(cb, type, quality)]: the encoder; [None] when the
      callback receives null *)
  toBlob : Canvas -> ImageFormat -> float -> option Blob;
  (** [blob.size] *)
  blob_size : Blob -> float;
  (** [ctx.drawImage(bitmap, 0, 0, w, h)] with high-quality smoothing: the
      pixels of the scaled image *)
  drawImageScaled : ImageBitmap -> Z -> Z -> list byte;
  (** whether the PNG round trip of [resizeImage] (toBlob, then a second
      createImageBitmap) succeeds; PNG is lossless, so the bitmap it gives
      is the canvas *)
  pngRoundTrip : Canvas -> bool
}.
Arguments createImageBitmap {Blob}.
Arguments getContext {Blob}.
Arguments toBlob {Blob}.
Arguments blob_size {Blob}.
Arguments drawImageScaled {Blob}.
Arguments pngRoundTrip {Blob}.

(* ===================================================================== *)
(** ** app/services/image-optimizer.service.ts *)
(* ===================================================================== *)

Module ImageOptimizerService.
Import JS U8.

Definition threshold : float := 30.

(** The two accumulators of the scan. *)
Record scan := { totalVariance : float; edgeCount : float }.

(** One iteration of the loop of [calculateImageComplexity]: the pixel at
    [i] against its successor in the flat array. *)
Definition complexity_step (data : list byte) (i : nat) (st : scan) : scan :=
  let r1 := get data i in
  let g1 := get data (i + 1) in
  let b1 := get data (i + 2) in
  let r2 := get data (i + 4) in
  let g2 := get data (i + 5) in
  let b2 := get data (i + 6) in
  let variance :=
    (Math_abs (r1 - r2) + Math_abs (g1 - g2) + Math_abs (b1 - b2))%float in
  {| totalVariance := (totalVariance st + variance)%float;
     edgeCount := if (threshold <? variance)%float
                  then (edgeCount st + 1)%float else edgeCount st |}.

Definition calculateImageComplexity (data : list byte) : float :=
  let st := for_step4 (U8.length data - 4) (complexity_step data)
              {| totalVariance := 0; edgeCount := 0 |} in
  let avgVariance := (totalVariance st / (of_Z (U8.length data) / 4))%float in
  let edgeRatio := (edgeCount st / (of_Z (U8.length data) / 4))%float in
  Math_min 1 (avgVariance / 100 * 0.5 + edgeRatio * 0.5)%float.

(** The last statement of [calculateOptimalQuality]: the quality for a
    complexity score. *)
Definition selectQuality (complexity : float) : float :=
  if (0.7 <? complexity)%float then 0.92%float
  else if (0.4 <? complexity)%float then 0.85%float
  else 0.75%float.

Definition calculateOptimalQuality {Blob} (P : Platform Blob)
    (imageData : loc) : M float :=
  let* bm := deref imageData in
  let canvas := new_canvas (bm_width bm) (bm_height bm) in
  if negb (getContext P canvas) then ret 0.85%float
  else
    let* canvas := drawImage canvas bm in
    let* sampleData :=
      getImageData canvas (Z.min 100 (bm_width bm)) (Z.min 100 (bm_height bm)) in
    ret (selectQuality (calculateImageComplexity sampleData)).

(** One iteration of the loop of [applyPsychovisualOptimization]. *)
Definition psychovisual_step (i : nat) (data : list byte) : list byte :=
  let r := get data i in
  let g := get data (i + 1) in
  let b := get data (i + 2) in
  let y := (0.299 * r + 0.587 * g + 0.114 * b)%float in
  let cb := (-0.168736 * r - 0.331264 * g + 0.5 * b + 128)%float in
  let cr := (0.5 * r - 0.418688 * g - 0.081312 * b + 128)%float in
  let cbOptimized := (Math_round (cb / 4) * 4)%float in
  let crOptimized := (Math_round (cr / 4) * 4)%float in
  let rOptimized := (y + 1.402 * (crOptimized - 128))%float in
  let gOptimized :=
    (y - 0.344136 * (cbOptimized - 128) - 0.714136 * (crOptimized - 128))%float in
  let bOptimized := (y + 1.772 * (cbOptimized - 128))%float in
  let data := set data i (Math_max 0 (Math_min 255 (Math_round rOptimized))) in
  let data := set data (i + 1) (Math_max 0 (Math_min 255 (Math_round gOptimized))) in
  set data (i + 2) (Math_max 0 (Math_min 255 (Math_round bOptimized))).

(** [applyPsychovisualOptimization] on the array it reads from and writes
    back to the canvas. *)
Definition applyPsychovisualOptimization (data : list byte) : list byte :=
  for_step4 (U8.length data) psychovisual_step data.

Definition optimize {Blob} (P : Platform Blob) (imageData : loc)
    (format : ImageFormat) (quality : float) : M Blob :=
  let* bm := deref imageData in
  let canvas := new_canvas (bm_width bm) (bm_height bm) in
  if negb (getContext P canvas) then throw "Failed to get canvas context"
  else
    let* canvas := drawImage canvas bm in
    let* canvas := update_image_data applyPsychovisualOptimization canvas in
    match toBlob P canvas format quality with
    | Some blob => ret blob
    | None => throw "Failed to create blob"
    end.

End ImageOptimizerService.

(** The interface [IImageOptimizer], as far as [process] uses it. *)
Record IImageOptimizer := {
  calculateOptimalQuality : loc -> M float
}.

Definition imageOptimizerService {Blob} (P : Platform Blob) : IImageOptimizer :=
  {| calculateOptimalQuality := ImageOptimizerService.calculateOptimalQuality P |}.

(* ===================================================================== *)
(** ** app/strategies: the conversion strategies *)
(* ===================================================================== *)

(** The interface [IConversionStrategy].  [convert] is given a reference
    to the bitmap, and an implementation is free to close it. *)
Record IConversionStrategy (Blob : Type) := {
  strategy_format : ImageFormat;
  convert : loc -> float -> bool -> M Blob;
  getRecommendedQuality : float
}.
Arguments strategy_format {Blob}.
Arguments convert {Blob}.
Arguments getRecommendedQuality {Blob}.

Definition format_eqb (f g : ImageFormat) : bool :=
  match f, g with
  | JPEG, JPEG | PNG, PNG | WEBP, WEBP | AVIF, AVIF | GIF, GIF | BMP, BMP => true
  | _, _ => false
  end.

Definition supports {Blob} (s : IConversionStrategy Blob) (f : ImageFormat) : bool :=
  format_eqb (strategy_format s) f.

Module BaseConversionStrategy.
Import JS U8.

Definition createCanvas (imageData : ImageBitmap) : Canvas :=
  new_canvas (bm_width imageData) (bm_height imageData).

Definition canvasToBlob {Blob} (P : Platform Blob) (targetFormat : ImageFormat)
    (canvas : Canvas) (quality : float) : M Blob :=
  match toBlob P canvas targetFormat quality with
  | Some blob => ret blob
  | None => throw "Failed to convert canvas to blob"
  end.

(** One iteration of the loop of [applyOptimization]. *)
Definition quantize_step (i : nat) (data : list byte) : list byte :=
  let data := set data i (Math_round (get data i / 2) * 2)%float in
  let data := set data (i + 1) (Math_round (get data (i + 1) / 2) * 2)%float in
  set data (i + 2) (Math_round (get data (i + 2) / 2) * 2)%float.

Definition quantize (data : list byte) : list byte :=
  for_step4 (U8.length data) quantize_step data.

Definition applyOptimization (canvas : Canvas) : M Canvas :=
  update_image_data quantize canvas.

(** [convert], with the [applyOptimization] of the subclass it is
    inherited by. *)
Definition convert {Blob} (P : Platform Blob) (targetFormat : ImageFormat)
    (this_applyOptimization : Canvas -> M Canvas)
    (imageData : loc) (quality : float) (optimize : bool) : M Blob :=
  let* bm := deref imageData in
  let canvas := createCanvas bm in
  if negb (getContext P canvas) then throw "Failed to get canvas context"
  else
    let* canvas := drawImage canvas bm in
    let* canvas := (if optimize then this_applyOptimization canvas
                    else ret canvas) in
    canvasToBlob P targetFormat canvas quality.

End BaseConversionStrategy.

Module JpegConversionStrategy.
Import JS U8.

(** One iteration of the compositing loop. *)
Definition flatten_step (i : nat) (data : list byte) : list byte :=
  let alpha := (get data (i + 3) / 255)%float in
  if (alpha <? 1)%float then
    let data := set data i
      (Math_round (get data i * alpha + 255 * (1 - alpha)))%float in
    let data := set data (i + 1)
      (Math_round (get data (i + 1) * alpha + 255 * (1 - alpha)))%float in
    let data := set data (i + 2)
      (Math_round (get data (i + 2) * alpha + 255 * (1 - alpha)))%float in
    set data (i + 3) 255
  else data.

Definition flatten (data : list byte) : list byte :=
  for_step4 (U8.length data) flatten_step data.

(** The override: composite on white, then [super.applyOptimization]. *)
Definition applyOptimization (canvas : Canvas) : M Canvas :=
  let* canvas := update_image_data flatten canvas in
  BaseConversionStrategy.applyOptimization canvas.

(** The array the override leaves on the canvas. *)
Definition optimized (data : list byte) : list byte :=
  BaseConversionStrategy.quantize (flatten data).

Definition strategy {Blob} (P : Platform Blob) : IConversionStrategy Blob :=
  Build_IConversionStrategy Blob JPEG
    (BaseConversionStrategy.convert P JPEG applyOptimization) 0.85.

End JpegConversionStrategy.

Module PngConversionStrategy.
Import JS U8.

Definition png_step (i : nat) (data : list byte) : list byte :=
  let data := set data i (Math_round (get data i / 4) * 4)%float in
  let data := set data (i + 1) (Math_round (get data (i + 1) / 4) * 4)%float in
  set data (i + 2) (Math_round (get data (i + 2) / 4) * 4)%float.

Definition applyPngOptimization (canvas : Canvas) : M Canvas :=
  update_image_data (fun data => for_step4 (U8.length data) png_step data) canvas.

Definition convert {Blob} (P : Platform Blob)
    (imageData : loc) (quality : float) (optimize : bool) : M Blob :=
  let* bm := deref imageData in
  let canvas := BaseConversionStrategy.createCanvas bm in
  if negb (getContext P canvas) then throw "Failed to get canvas context"
  else
    let* canvas := drawImage canvas bm in
    let* canvas := (if optimize then applyPngOptimization canvas
                    else ret canvas) in
    BaseConversionStrategy.canvasToBlob P PNG canvas 1.0.

Definition strategy {Blob} (P : Platform Blob) : IConversionStrategy Blob :=
  Build_IConversionStrategy Blob PNG
    (convert P) 1.0.

End PngConversionStrategy.

Module WebpConversionStrategy.
Import JS U8.

Definition webp_step (i : nat) (data : list byte) : list byte :=
  let data := set data i (Math_round (get data i / 1.5) * 1.5)%float in
  let data := set data (i + 1) (Math_round (get data (i + 1) / 1.5) * 1.5)%float in
  set data (i + 2) (Math_round (get data (i + 2) / 1.5) * 1.5)%float.

Definition applyOptimization (canvas : Canvas) : M Canvas :=
  update_image_data (fun data => for_step4 (U8.length data) webp_step data) canvas.

Definition strategy {Blob} (P : Platform Blob) : IConversionStrategy Blob :=
  Build_IConversionStrategy Blob WEBP
    (BaseConversionStrategy.convert P WEBP applyOptimization) 0.9.

End WebpConversionStrategy.

Module AvifConversionStrategy.
Import JS U8.

(** One iteration of the loop of [applyOptimization]. *)
Definition round_step (i : nat) (data : list byte) : list byte :=
  let data := set data i (Math_round (get data i)) in
  let data := set data (i + 1) (Math_round (get data (i + 1))) in
  set data (i + 2) (Math_round (get data (i + 2))).

Definition rounded (data : list byte) : list byte :=
  for_step4 (U8.length data) round_step data.

Definition applyOptimization (canvas : Canvas) : M Canvas :=
  update_image_data rounded canvas.

(** The canvas [convert] hands to the encoder. *)
Definition prepare {Blob} (P : Platform Blob)
    (imageData : loc) (optimize : bool) : M Canvas :=
  let* bm := deref imageData in
  let canvas := BaseConversionStrategy.createCanvas bm in
  if negb (getContext P canvas) then throw "Failed to get canvas context"
  else
    let* canvas := drawImage canvas bm in
    if optimize then applyOptimization canvas else ret canvas.

Definition convert {Blob} (P : Platform Blob)
    (imageData : loc) (quality : float) (optimize : bool) : M Blob :=
  let* canvas := prepare P imageData optimize in
  fun h =>
    match BaseConversionStrategy.canvasToBlob P AVIF canvas quality h with
    | Ok blob h' => Ok blob h'
    | Throw _ =>
        Throw "AVIF format is not supported in your browser. Please try WebP or JPEG."
    end.

Definition strategy {Blob} (P : Platform Blob) : IConversionStrategy Blob :=
  Build_IConversionStrategy Blob AVIF
    (convert P) 0.85.

End AvifConversionStrategy.

Module GifConversionStrategy.

Definition convert {Blob} (P : Platform Blob)
    (imageData : loc) (quality : float) (optimize : bool) : M Blob :=
  let* bm := deref imageData in
  let canvas := BaseConversionStrategy.createCanvas bm in
  if negb (getContext P canvas) then throw "Failed to get canvas context"
  else
    let* canvas := drawImage canvas bm in
    BaseConversionStrategy.canvasToBlob P GIF canvas 1.0.

Definition strategy {Blob} (P : Platform Blob) : IConversionStrategy Blob :=
  Build_IConversionStrategy Blob GIF
    (convert P) 1.0.

End GifConversionStrategy.

Module BmpConversionStrategy.

Definition convert {Blob} (P : Platform Blob)
    (imageData : loc) (quality : float) (optimize : bool) : M Blob :=
  let* bm := deref imageData in
  let canvas := BaseConversionStrategy.createCanvas bm in
  if negb (getContext P canvas) then throw "Failed to get canvas context"
  else
    let* canvas := drawImage canvas bm in
    BaseConversionStrategy.canvasToBlob P BMP canvas 1.0.

Definition strategy {Blob} (P : Platform Blob) : IConversionStrategy Blob :=
  Build_IConversionStrategy Blob BMP
    (convert P) 1.0.

End BmpConversionStrategy.

(** The strategy map of [ConversionStrategyFactory]: a format to the
    strategy registered for it, if any. *)
Definition strategies (Blob : Type) : Type :=
  ImageFormat -> option (IConversionStrategy Blob).

Module ConversionStrategyFactory.

(** The initial contents of the static map. *)
Definition initial {Blob} (P : Platform Blob) : strategies Blob :=
  fun f => Some match f with
                | JPEG => JpegConversionStrategy.strategy P
                | PNG => PngConversionStrategy.strategy P
                | WEBP => WebpConversionStrategy.strategy P
                | AVIF => AvifConversionStrategy.strategy P
                | GIF => GifConversionStrategy.strategy P
                | BMP => BmpConversionStrategy.strategy P
                end.

Definition registerStrategy {Blob} (m : strategies Blob) (format : ImageFormat)
    (strategy : IConversionStrategy Blob) : strategies Blob :=
  fun f => if format_eqb f format then Some strategy else m f.

Definition getStrategy {Blob} (m : strategies Blob) (format : ImageFormat)
  : M (IConversionStrategy Blob) :=
  match m format with
  | Some strategy => ret strategy
  | None => throw ("Unsupported image format: " ++ mime format)
  end.

Definition isFormatSupported {Blob} (m : strategies Blob) (format : ImageFormat)
  : bool :=
  match m format with Some _ => true | None => false end.

End ConversionStrategyFactory.

(* ===================================================================== *)
(** ** app/services/image-processor.service.ts *)
(* ===================================================================== *)

Record ProcessingResult (Blob : Type) := {
  blob : Blob;
  format : ImageFormat;
  originalSize : float;
  processedSize : float;
  width : Z;
  height : Z
}.
Arguments blob {Blob}.
Arguments format {Blob}.
Arguments originalSize {Blob}.
Arguments processedSize {Blob}.
Arguments width {Blob}.
Arguments height {Blob}.

Module ImageProcessorService.
Import JS.

(** [file.name.split('.').pop()?.toLowerCase() || ''] *)
Definition extension_of (name : string) : string :=
  match pop (split "." name) with
  | Some segment => toLowerCase segment
  | None => ""
  end.

Definition isValidImage (file : File) : bool :=
  if negb (startsWith (file_type file) "image/") then false
  else js_in (extension_of (file_name file)) (List.map fst IMAGE_EXTENSIONS).

Definition loadImage {Blob} (P : Platform Blob) (file : File) : M loc :=
  match createImageBitmap P file with
  | Some bm => alloc bm
  | None => throw "Failed to load image"
  end.

(** Truthiness of an optional number: [undefined], NaN and 0 are falsy. *)
Definition given (x : option float) : bool :=
  match x with Some v => truthy v | None => false end.

(** [a > limit] for an optional limit already known to be given. *)
Definition exceeds (a : float) (limit : option float) : bool :=
  match limit with Some v => (v <? a)%float | None => false end.

Definition shouldResize (imageBitmap : loc) (options : ProcessingOptions)
  : M bool :=
  let* bm := deref imageBitmap in
  if negb (given (maxWidth options)) && negb (given (maxHeight options))
  then ret false
  else ret ((given (maxWidth options)
               && exceeds (of_Z (bm_width bm)) (maxWidth options))
            || (given (maxHeight options)
                  && exceeds (of_Z (bm_height bm)) (maxHeight options))
            || false).

(** The first half of [resizeImage]: [newWidth] and [newHeight] for a
    bitmap of the given width and height. *)
Definition resizeDimensions (bitmapWidth bitmapHeight : float)
    (options : ProcessingOptions) : float * float :=
  let newWidth := bitmapWidth in
  let newHeight := bitmapHeight in
  if maintainAspectRatio options then
    let aspectRatio := (bitmapWidth / bitmapHeight)%float in
    let '(newWidth, newHeight) :=
      match maxWidth options with
      | Some mw =>
          if truthy mw && (mw <? newWidth)%float
          then (mw, Math_round (mw / aspectRatio))
          else (newWidth, newHeight)
      | None => (newWidth, newHeight)
      end in
    let '(newWidth, newHeight) :=
      match maxHeight options with
      | Some mh =>
          if truthy mh && (mh <? newHeight)%float
          then (Math_round (mh * aspectRatio), mh)
          else (newWidth, newHeight)
      | None => (newWidth, newHeight)
      end in
    (newWidth, newHeight)
  else
    let newWidth :=
      match maxWidth options with
      | Some mw => if truthy mw then mw else newWidth
      | None => newWidth
      end in
    let newHeight :=
      match maxHeight options with
      | Some mh => if truthy mh then mh else newHeight
      | None => newHeight
      end in
    (newWidth, newHeight).

Definition resizeImage {Blob} (P : Platform Blob) (imageBitmap : loc)
    (options : ProcessingOptions) : M loc :=
  let* bm := deref imageBitmap in
  let '(newWidth, newHeight) :=
    resizeDimensions (of_Z (bm_width bm)) (of_Z (bm_height bm)) options in
  let w := ToUint32 newWidth in
  let h := ToUint32 newHeight in
  let canvas := new_canvas w h in
  if negb (getContext P canvas) then throw "Failed to get canvas context"
  else if bm_detached bm
  then throw "InvalidStateError: the image source is detached"
  else
    let canvas := {| cv_width := w; cv_height := h;
                     cv_data := drawImageScaled P bm w h |} in
    if pngRoundTrip P canvas
    then alloc {| bm_width := w; bm_height := h;
                  bm_data := cv_data canvas; bm_detached := false |}
    else throw "undefined".

(** What [process] has in hand when it reaches the comment
    "Save dimensions BEFORE converting". *)
Record Prepared (Blob : Type) := {
  p_imageBitmap : loc;
  p_resizedBitmap : loc;
  p_strategy : IConversionStrategy Blob;
  p_quality : float
}.
Arguments p_imageBitmap {Blob}.
Arguments p_resizedBitmap {Blob}.
Arguments p_strategy {Blob}.
Arguments p_quality {Blob}.

(** [process], from its first statement to the choice of the quality. *)
Definition process_prepare {Blob} (P : Platform Blob) (m : strategies Blob)
    (optimizer : option IImageOptimizer)
    (file : File) (options : ProcessingOptions) : M (Prepared Blob) :=
  if negb (isValidImage file) then throw "Invalid image file"
  else
    let* imageBitmap := loadImage P file in
    let* resize := shouldResize imageBitmap options in
    let* resizedBitmap :=
      (if resize then resizeImage P imageBitmap options
       else ret imageBitmap) in
    let* strategy := ConversionStrategyFactory.getStrategy m (targetFormat options) in
    let* q :=
      (if optimize options then
         match optimizer with
         | Some o => calculateOptimalQuality o resizedBitmap
         | None => ret (quality options)
         end
       else ret (quality options)) in
    ret {| p_imageBitmap := imageBitmap; p_resizedBitmap := resizedBitmap;
           p_strategy := strategy; p_quality := q |}.

(** [process], from the saving of the dimensions to the result.  The
    fields [compressionRatio] and [processingTime] of the result, a
    formatted number and a wall-clock difference, are left out. *)
Definition process_convert {Blob} (P : Platform Blob)
    (file : File) (options : ProcessingOptions) (pre : Prepared Blob)
  : M (ProcessingResult Blob) :=
  let* resultWidth := width_of (p_resizedBitmap pre) in
  let* resultHeight := height_of (p_resizedBitmap pre) in
  let* resultBlob :=
    convert (p_strategy pre) (p_resizedBitmap pre) (p_quality pre)
      (optimize options) in
  close (p_imageBitmap pre) ;;
  (if Nat.eqb (p_resizedBitmap pre) (p_imageBitmap pre) then ret tt
   else close (p_resizedBitmap pre)) ;;
  ret {| blob := resultBlob;
         format := targetFormat options;
         originalSize := file_size file;
         processedSize := blob_size P resultBlob;
         width := resultWidth;
         height := resultHeight |}.

Definition process {Blob} (P : Platform Blob) (m : strategies Blob)
    (optimizer : option IImageOptimizer)
    (file : File) (options : ProcessingOptions)
  : M (ProcessingResult Blob) :=
  let* pre := process_prepare P m optimizer file options in
  process_convert P file options pre.

End ImageProcessorService.

(* ===================================================================== *)
(** ** Pixel views and test doubles *)
(* ===================================================================== *)

(** An RGBA pixel, and the [ImageData] array of a list of pixels. *)
Definition pixel : Type := byte * byte * byte * byte.

Definition unpack1 (p : pixel) : list byte :=
  let '(r, g, b, a) := p in [r; g; b; a].

Definition unpack (ps : list pixel) : list byte := flat_map unpack1 ps.

(** A pixel and an array from channel values. *)
Definition rgba (r g b a : Z) : pixel :=
  (JS.byte_of_Z r, JS.byte_of_Z g, JS.byte_of_Z b, JS.byte_of_Z a).

Definition bytes (l : list Z) : list byte := List.map JS.byte_of_Z l.

(** The channel values 0..255. *)
Definition channel_values : list Z := List.map Z.of_nat (seq 0 256).

Module Fixtures.

(** A recording encoder: the blob it returns is the request it got. *)
Record Request := {
  req_format : ImageFormat;
  req_quality : float;
  req_data : list byte
}.

(** A browser that decodes every file to [bm], always has a 2D context,
    scales to a black image, and records what its encoder is asked. *)
Definition recorder (bm : ImageBitmap) : Platform Request :=
  {| createImageBitmap := fun _ => Some bm;
     getContext := fun _ => true;
     toBlob := fun c f q =>
       Some {| req_format := f; req_quality := q; req_data := cv_data c |};
     blob_size := fun r => JS.of_nat (List.length (req_data r));
     drawImageScaled := fun _ w h => repeat x00 (Z.to_nat (4 * w * h));
     pngRoundTrip := fun _ => true |}.

(** A strategy that closes the bitmap it is given before it returns, as
    the interface allows. *)
Definition closing_strategy : IConversionStrategy Request :=
  Build_IConversionStrategy Request PNG
    (fun l q _ =>
       let* bm := deref l in
       close l ;;
       ret {| req_format := PNG; req_quality := q; req_data := bm_data bm |})
    1.0.

Definition bitmap (w h : Z) (data : list byte) : ImageBitmap :=
  {| bm_width := w; bm_height := h; bm_data := data; bm_detached := false |}.

Definition file (name type : string) : File :=
  {| file_name := name; file_type := type; file_size := 4; file_bytes := [] |}.

Definition options (f : ImageFormat) (q : float) (opt : bool)
    (mw mh : option float) : ProcessingOptions :=
  {| targetFormat := f; quality := q; optimize := opt;
     maxWidth := mw; maxHeight := mh; maintainAspectRatio := true |}.

End Fixtures.

(* ===================================================================== *)
(** ** Specification-side definitions *)
(* ===================================================================== *)

(** The integer nearest to [c * (alpha/255) + 255 * (1 - alpha/255)]: with
    [n = c * alpha + 255 * (255 - alpha)] the blend is [n / 255], and the
    nearest integer is [floor ((2 n + 255) / 510)] (no tie occurs: [2 n]
    is even and 255 is odd). *)
Definition blend_on_white (c alpha : Z) : Z :=
  (2 * (c * alpha + 255 * (255 - alpha)) + 255) / 510.

(** The alpha-flatten pre-pass in the words of the specification. *)
Definition spec_flatten_pixel (p : pixel) : pixel :=
  let '(r, g, b, a) := p in
  let alpha := JS.Z_of_byte a in
  if alpha =? 0 then (xff, xff, xff, xff)
  else if alpha =? 255 then p
  else (JS.byte_of_Z (blend_on_white (JS.Z_of_byte r) alpha),
        JS.byte_of_Z (blend_on_white (JS.Z_of_byte g) alpha),
        JS.byte_of_Z (blend_on_white (JS.Z_of_byte b) alpha),
        xff).

(** Direct quantization to step 2: the nearest even value, ties upwards,
    clamped to 255. *)
Definition nearest_even (c : Z) : Z := Z.min 255 (2 * ((c + 1) / 2)).

Definition spec_quantize_pixel (p : pixel) : pixel :=
  let '(r, g, b, a) := p in
  (JS.byte_of_Z (nearest_even (JS.Z_of_byte r)),
   JS.byte_of_Z (nearest_even (JS.Z_of_byte g)),
   JS.byte_of_Z (nearest_even (JS.Z_of_byte b)),
   a).

(** The quality the built-in strategy of a format hands to the encoder when
    [convert] is called with quality [q]. *)
Definition encoder_quality (f : ImageFormat) (q : float) : float :=
  match f with
  | JPEG | WEBP | AVIF => q
  | PNG | GIF | BMP => 1.0%float
  end.

(* ===================================================================== *)
(** ** The loop bodies, channel by channel *)
(* ===================================================================== *)

(** What one iteration of the compositing loop of the JPEG strategy stores
    for a colour channel [c] of a pixel with alpha byte [a], and for the
    alpha byte itself: the expressions of [flatten_step] on bytes. *)
Definition flatten_channel (c a : byte) : byte :=
  let alpha := (JS.of_Z (JS.Z_of_byte a) / 255)%float in
  if (alpha <? 1)%float
  then JS.ToUint8Clamp
         (JS.Math_round (JS.of_Z (JS.Z_of_byte c) * alpha + 255 * (1 - alpha)))%float
  else c.

Definition flatten_alpha (a : byte) : byte :=
  let alpha := (JS.of_Z (JS.Z_of_byte a) / 255)%float in
  if (alpha <? 1)%float then JS.ToUint8Clamp 255 else a.

Definition flatten_pixel (p : pixel) : pixel :=
  let '(r, g, b, a) := p in
  (flatten_channel r a, flatten_channel g a, flatten_channel b a,
   flatten_alpha a).

(** What one iteration of the base quantization loop stores for a colour
    channel. *)
Definition quantize_channel (c : byte) : byte :=
  JS.ToUint8Clamp (JS.Math_round (JS.of_Z (JS.Z_of_byte c) / 2) * 2)%float.

Definition quantize_pixel (p : pixel) : pixel :=
  let '(r, g, b, a) := p in
  (quantize_channel r, quantize_channel g, quantize_channel b, a).

(* ===================================================================== *)
(** ** The other optimizer passes, channel by channel *)
(* ===================================================================== *)

(** What one iteration of the PNG loop stores for a colour channel. *)
Definition png_channel (c : byte) : byte :=
  JS.ToUint8Clamp (JS.Math_round (JS.of_Z (JS.Z_of_byte c) / 4) * 4)%float.

Definition png_pixel (p : pixel) : pixel :=
  let '(r, g, b, a) := p in (png_channel r, png_channel g, png_channel b, a).

(** The loop of [applyPngOptimization] on the array. *)
Definition png_quantize (data : list byte) : list byte :=
  U8.for_step4 (U8.length data) PngConversionStrategy.png_step data.

(** What one iteration of the WebP loop stores for a colour channel. *)
Definition webp_channel (c : byte) : byte :=
  JS.ToUint8Clamp (JS.Math_round (JS.of_Z (JS.Z_of_byte c) / 1.5) * 1.5)%float.

Definition webp_pixel (p : pixel) : pixel :=
  let '(r, g, b, a) := p in (webp_channel r, webp_channel g, webp_channel b, a).

(** The loop of the WebP [applyOptimization] on the array. *)
Definition webp_quantize (data : list byte) : list byte :=
  U8.for_step4 (U8.length data) WebpConversionStrategy.webp_step data.

(** What one iteration of [applyPsychovisualOptimization] stores for the
    pixel (r, g, b, a): the expressions of [psychovisual_step] on bytes. *)
Definition psychovisual_pixel (p : pixel) : pixel :=
  let '(r0, g0, b0, a) := p in
  let r := JS.of_Z (JS.Z_of_byte r0) in
  let g := JS.of_Z (JS.Z_of_byte g0) in
  let b := JS.of_Z (JS.Z_of_byte b0) in
  let y := (0.299 * r + 0.587 * g + 0.114 * b)%float in
  let cb := (-0.168736 * r - 0.331264 * g + 0.5 * b + 128)%float in
  let cr := (0.5 * r - 0.418688 * g - 0.081312 * b + 128)%float in
  let cbOptimized := (JS.Math_round (cb / 4) * 4)%float in
  let crOptimized := (JS.Math_round (cr / 4) * 4)%float in
  let rOptimized := (y + 1.402 * (crOptimized - 128))%float in
  let gOptimized :=
    (y - 0.344136 * (cbOptimized - 128) - 0.714136 * (crOptimized - 128))%float in
  let bOptimized := (y + 1.772 * (cbOptimized - 128))%float in
  (JS.ToUint8Clamp (JS.Math_max 0 (JS.Math_min 255 (JS.Math_round rOptimized))),
   JS.ToUint8Clamp (JS.Math_max 0 (JS.Math_min 255 (JS.Math_round gOptimized))),
   JS.ToUint8Clamp (JS.Math_max 0 (JS.Math_min 255 (JS.Math_round bOptimized))),
   a).

(** Direct quantization to step 4 in integers: the nearest multiple of 4,
    ties upwards, clamped to 255. *)
Definition nearest_multiple_of_4 (c : Z) : Z := Z.min 255 (4 * ((c + 2) / 4)).

(** The alpha byte of each pixel of an [ImageData] array. *)
Definition alphas (ps : list pixel) : list byte := List.map snd ps.

Definition spec_png_pixel (p : pixel) : pixel :=
  let '(r, g, b, a) := p in
  (JS.byte_of_Z (nearest_multiple_of_4 (JS.Z_of_byte r)),
   JS.byte_of_Z (nearest_multiple_of_4 (JS.Z_of_byte g)),
   JS.byte_of_Z (nearest_multiple_of_4 (JS.Z_of_byte b)),
   a).

(** What the WebP pass amounts to on a channel value: [round(c / 1.5) * 1.5]
    is a multiple of 1.5, and storing it in the clamped array rounds the
    halves to the even neighbour; the values 1 and 5 modulo 6 move by one,
    away from the multiple of 6, and every other value stays. *)
Definition webp_value (c : Z) : Z :=
  if c mod 6 =? 1 then c + 1 else if c mod 6 =? 5 then c - 1 else c.

Definition spec_webp_pixel (p : pixel) : pixel :=
  let '(r, g, b, a) := p in
  (JS.byte_of_Z (webp_value (JS.Z_of_byte r)),
   JS.byte_of_Z (webp_value (JS.Z_of_byte g)),
   JS.byte_of_Z (webp_value (JS.Z_of_byte b)),
   a).

(** A pixel with equal R, G and B. *)
Definition grey (p : pixel) : Prop :=
  let '(r, g, b, _) := p in r = g /\ g = b.

(** An [ImageData] array of [n] copies of one pixel, and a bitmap of one
    colour. *)
Definition uniform (p : pixel) (n : nat) : list byte := unpack (repeat p n).

Definition uniform_bitmap (p : pixel) (w h : nat) : ImageBitmap :=
  {| bm_width := Z.of_nat w; bm_height := Z.of_nat h;
     bm_data := uniform p (w * h); bm_detached := false |}.

(** The score the analyzer computes once its scan has found no variance and
    no edge in an array of [n] pixels. *)
Definition score_without_variance (n : nat) : float :=
  let pixels := (JS.of_Z (Z.of_nat (4 * n)) / 4)%float in
  JS.Math_min 1 (0 / pixels / 100 * 0.5 + 0 / pixels * 0.5)%float.

(* ===================================================================== *)
(** ** File names *)
(* ===================================================================== *)

(** Whether a string contains an ASCII capital letter, and whether it
    contains a given character. *)
Fixpoint has_upper (s : string) : bool :=
  match s with
  | EmptyString => false
  | String c s' =>
      let n := nat_of_ascii c in
      ((65 <=? n) && (n <=? 90))%nat || has_upper s'
  end.

Fixpoint contains (c : ascii) (s : string) : bool :=
  match s with
  | EmptyString => false
  | String d s' => Ascii.eqb d c || contains c s'
  end.

(** The extensions [isValidImage] lets through: the seven keys of
    [IMAGE_EXTENSIONS] and the two lower-case keys of [Object.prototype]. *)
Definition accepted_extensions : list string :=
  [ "jpg"; "jpeg"; "png"; "webp"; "avif"; "gif"; "bmp";
    "constructor"; "__proto__" ]%string.

(* ===================================================================== *)
(** ** Summaries of the pipeline *)
(* ===================================================================== *)

(** Whether a limit that is given is exceeded by the bitmap. *)
Definition needs_resize (bm : ImageBitmap) (o : ProcessingOptions) : bool :=
  (ImageProcessorService.given (maxWidth o)
     && ImageProcessorService.exceeds (JS.of_Z (bm_width bm)) (maxWidth o))
  || (ImageProcessorService.given (maxHeight o)
        && ImageProcessorService.exceeds (JS.of_Z (bm_height bm)) (maxHeight o)).

(** The size of the canvas [resizeImage] draws on. *)
Definition resized_size (bm : ImageBitmap) (o : ProcessingOptions) : Z * Z :=
  let '(newWidth, newHeight) :=
    ImageProcessorService.resizeDimensions
      (JS.of_Z (bm_width bm)) (JS.of_Z (bm_height bm)) o in
  (JS.ToUint32 newWidth, JS.ToUint32 newHeight).

(** The array the built-in strategy of a format leaves on its canvas. *)
Definition canvas_data (f : ImageFormat) (optimize : bool) (data : list byte)
  : list byte :=
  if optimize then
    match f with
    | JPEG => JpegConversionStrategy.optimized data
    | PNG => png_quantize data
    | WEBP => webp_quantize data
    | AVIF => AvifConversionStrategy.rounded data
    | GIF | BMP => data
    end
  else data.

(** The optimizers the application configures: none, or the
    [ImageOptimizerService]. *)
Definition standard_optimizer {Blob} (P : Platform Blob)
    (optimizer : option IImageOptimizer) : Prop :=
  optimizer = None \/ optimizer = Some (imageOptimizerService P).

(* ===================================================================== *)
(** ** ImageProcessorService.extractMetadata *)
(* ===================================================================== *)

Module ExtractMetadata.

(** The value of [IMAGE_EXTENSIONS[extension] || file.type]: the format of
    an own key, else the (truthy) object inherited under a key of
    [Object.prototype], else the declared type of the file. *)
Inductive FormatValue :=
| Format (f : ImageFormat)
| InheritedProperty (key : string)
| DeclaredType (type : string).

Record ImageMetadata := {
  name : string;
  size : float;
  type : string;
  width : Z;
  height : Z;
  format : FormatValue
}.

(** [IMAGE_EXTENSIONS[extension]] for an own key. *)
Fixpoint own_property (key : string) (obj : list (string * ImageFormat))
  : option ImageFormat :=
  match obj with
  | [] => None
  | (k, v) :: obj' => if String.eqb key k then Some v else own_property key obj'
  end.

Definition format_of (extension : string) (file : File) : FormatValue :=
  match own_property extension IMAGE_EXTENSIONS with
  | Some f => Format f
  | None =>
      if JS.mem_string extension JS.Object_prototype_keys
      then InheritedProperty extension
      else DeclaredType (file_type file)
  end.

Definition extractMetadata {Blob} (P : Platform Blob) (file : File)
  : M ImageMetadata :=
  let* imageBitmap := ImageProcessorService.loadImage P file in
  let extension := ImageProcessorService.extension_of (file_name file) in
  let* w := width_of imageBitmap in
  let* h := height_of imageBitmap in
  let metadata :=
    {| name := file_name file; size := file_size file; type := file_type file;
       width := w; height := h; format := format_of extension file |} in
  close imageBitmap ;;
  ret metadata.

End ExtractMetadata.

(* ===================================================================== *)
(** ** Facts about numbers and bytes *)
(* ===================================================================== *)

Section FloatOrder.

Lemma SFcompare_antisym (x y : spec_float) :
  SFcompare y x =
  match SFcompare x y with Some c => Some (CompOpp c) | None => None end.
Proof.
  destruct x as [ | | |s1 m1 e1], y as [ | | |s2 m2 e2]; simpl; try reflexivity;
    repeat match goal with b : bool |- _ => destruct b end; simpl; try reflexivity.
  all: rewrite (Z.compare_antisym e1 e2); destruct (e1 ?= e2)%Z; simpl;
    try reflexivity; rewrite ?Pos.compare_cont_spec;
    rewrite (Pos.compare_antisym m1 m2); destruct (m1 ?= m2)%positive;
    reflexivity.
Qed.

(** [x <= y] excludes [y < x]. *)
Lemma leb_not_ltb (x y : float) :
  (x <=? y)%float = true -> (y <? x)%float = false.
Proof.
  rewrite ltb_spec, leb_spec. unfold SFltb, SFleb.
  rewrite (SFcompare_antisym (Prim2SF x) (Prim2SF y)).
  destruct (SFcompare (Prim2SF x) (Prim2SF y)) as [[]|]; simpl; congruence.
Qed.

Lemma SFcompare_lt_le_trans (a b c : spec_float) :
  SFltb a b = true -> SFleb b c = true -> SFltb a c = true.
Proof.
  unfold SFltb, SFleb.
  destruct a as [ | | |s1 m1 e1], b as [ | | |s2 m2 e2], c as [ | | |s3 m3 e3];
    simpl; try congruence;
    repeat match goal with b : bool |- _ => destruct b end; simpl;
    try congruence.
  all: rewrite ?Pos.compare_cont_spec; unfold Pos.switch_Eq;
    destruct (Z.compare_spec e1 e2), (Z.compare_spec e2 e3),
             (Z.compare_spec e1 e3); simpl; try congruence; try lia;
    destruct (Pos.compare_spec m1 m2), (Pos.compare_spec m2 m3),
             (Pos.compare_spec m1 m3); simpl; try congruence; lia.
Qed.

(** [x < y] and [y <= z] give [x < z]. *)
Lemma ltb_leb_trans (x y z : float) :
  (x <? y)%float = true -> (y <=? z)%float = true -> (x <? z)%float = true.
Proof. rewrite !ltb_spec, leb_spec. apply SFcompare_lt_le_trans. Qed.

End FloatOrder.

Section Bytes.
Import JS.

Lemma Z_of_byte_range (b : byte) : 0 <= Z_of_byte b < 256.
Proof.
  unfold Z_of_byte. pose proof (Byte.to_N_bounded b). lia.
Qed.

Lemma byte_of_Z_of_byte (b : byte) : byte_of_Z (Z_of_byte b) = b.
Proof.
  unfold byte_of_Z. pose proof (Z_of_byte_range b) as Hr.
  rewrite Z.mod_small by lia. unfold Z_of_byte.
  rewrite N2Z.id, Byte.of_to_N. reflexivity.
Qed.

Lemma channel_values_spec (z : Z) : 0 <= z < 256 -> In z channel_values.
Proof.
  intros Hz. unfold channel_values.
  apply in_map_iff. exists (Z.to_nat z). split; [lia|].
  apply in_seq. lia.
Qed.

(** A property checked on the 256 channel values holds of every byte. *)
Lemma forall_bytes (P : byte -> bool) :
  forallb (fun z => P (byte_of_Z z)) channel_values = true ->
  forall b, P b = true.
Proof.
  intros Hall b. rewrite forallb_forall in Hall.
  rewrite <- (byte_of_Z_of_byte b). apply Hall, channel_values_spec,
    Z_of_byte_range.
Qed.

Lemma forall_bytes2 (P : byte -> byte -> bool) :
  forallb (fun y => forallb (fun z => P (byte_of_Z y) (byte_of_Z z))
                      channel_values) channel_values = true ->
  forall a b, P a b = true.
Proof.
  intros Hall a. apply (forall_bytes (fun a => forallb (fun z => P a (byte_of_Z z)) channel_values)) with (b := a) in Hall.
  intros b. apply (forall_bytes (P a)). exact Hall.
Qed.

End Bytes.

(* ===================================================================== *)
(** ** Loops over an ImageData array *)
(* ===================================================================== *)

Section PixelLoops.
Import JS U8.

Lemma get_app_r (pre l : list byte) (k : nat) :
  get (pre ++ l) (List.length pre + k) = get l k.
Proof.
  unfold get. rewrite lookup_app_r by lia.
  replace (List.length pre + k - List.length pre)%nat with k by lia.
  reflexivity.
Qed.

Lemma set_app_r (pre l : list byte) (k : nat) (x : float) :
  set (pre ++ l) (List.length pre + k) x = pre ++ set l k x.
Proof. unfold set. apply insert_app_r. Qed.

Lemma get_app_0 (pre l : list byte) :
  get (pre ++ l) (List.length pre) = get l 0.
Proof. rewrite <- (Nat.add_0_r (List.length pre)) at 1. apply get_app_r. Qed.

Lemma set_app_0 (pre l : list byte) (x : float) :
  set (pre ++ l) (List.length pre) x = pre ++ set l 0 x.
Proof. rewrite <- (Nat.add_0_r (List.length pre)) at 1. apply set_app_r. Qed.

Lemma length_unpack (ps : list pixel) :
  List.length (unpack ps) = (4 * List.length ps)%nat.
Proof.
  induction ps as [|[[[r g] b] a] ps IH]; [reflexivity|].
  change (unpack ((r, g, b, a) :: ps)) with ([r; g; b; a] ++ unpack ps).
  rewrite length_app, IH. simpl. lia.
Qed.

Lemma step4_unpack (ps : list pixel) :
  step4 (U8.length (unpack ps)) =
  List.map (fun k => (4 * k)%nat) (seq 0 (List.length ps)).
Proof.
  unfold step4, U8.length. rewrite length_unpack.
  replace ((Z.of_nat (4 * List.length ps) + 3) / 4)
    with (Z.of_nat (List.length ps)).
  - rewrite Nat2Z.id. reflexivity.
  - apply Z.div_unique with (r := 3); lia.
Qed.

(** A loop whose iteration at [i] rewrites the pixel at [i] alone, by
    [f], maps [f] over the pixels. *)
Lemma for_step4_pixels (step : nat -> list byte -> list byte)
    (f : pixel -> pixel) :
  (forall pre p post,
      step (List.length pre) (pre ++ unpack1 p ++ post)
      = pre ++ unpack1 (f p) ++ post) ->
  forall ps,
    for_step4 (U8.length (unpack ps)) step (unpack ps)
    = unpack (List.map f ps).
Proof.
  intros Hlocal ps. unfold for_step4. rewrite step4_unpack.
  enough (Hgen : forall todo pre k,
             List.length pre = (4 * k)%nat ->
             fold_left (fun st i => step i st)
               (List.map (fun k => (4 * k)%nat) (seq k (List.length todo)))
               (pre ++ unpack todo)
             = pre ++ unpack (List.map f todo)).
  { apply (Hgen ps [] 0%nat). reflexivity. }
  induction todo as [|p todo IH]; intros pre k Hk; [reflexivity|].
  change (unpack (p :: todo)) with (unpack1 p ++ unpack todo).
  change (unpack (List.map f (p :: todo)))
    with (unpack1 (f p) ++ unpack (List.map f todo)).
  cbn [List.length seq List.map fold_left].
  rewrite <- Hk, Hlocal.
  replace (pre ++ unpack1 (f p) ++ unpack todo)
    with ((pre ++ unpack1 (f p)) ++ unpack todo)
    by (rewrite <- app_assoc; reflexivity).
  rewrite (IH (pre ++ unpack1 (f p)) (S k)).
  - rewrite <- app_assoc. reflexivity.
  - rewrite length_app, Hk. destruct (f p) as [[[r g] b] a]. simpl. lia.
Qed.

(** A loop whose iterations leave the array as it is leaves it so. *)
Lemma for_step4_id {S} (bound : Z) (step : nat -> S -> S) (s : S) :
  (forall i, step i s = s) -> for_step4 bound step s = s.
Proof.
  intros Hid. unfold for_step4.
  induction (step4 bound) as [|i l IH]; simpl; [reflexivity|].
  rewrite Hid. exact IH.
Qed.

(** Storing back what was read changes nothing, in or out of range. *)
Lemma set_same (data : list byte) (i : nat) (g : float -> float) :
  (forall b, ToUint8Clamp (g (of_Z (Z_of_byte b))) = b) ->
  set data i (g (get data i)) = data.
Proof.
  intros Hg. unfold set, get.
  destruct (data !! i) as [b|] eqn:Hb.
  - rewrite Hg. apply list_insert_id, Hb.
  - apply list_insert_ge. apply lookup_ge_None. exact Hb.
Qed.

End PixelLoops.

Section LoopBodies.
Import JS U8.

Ltac at_pixel :=
  repeat first
    [ rewrite get_app_0 | rewrite get_app_r
    | rewrite set_app_0 | rewrite set_app_r ];
  cbn [get set lookup list_lookup insert list_insert app].

Lemma flatten_step_local (pre : list byte) (p : pixel) (post : list byte) :
  JpegConversionStrategy.flatten_step (List.length pre) (pre ++ unpack1 p ++ post)
  = pre ++ unpack1 (flatten_pixel p) ++ post.
Proof.
  destruct p as [[[r g] b] a].
  unfold JpegConversionStrategy.flatten_step, flatten_pixel, flatten_channel,
    flatten_alpha, unpack1.
  cbn [app]. at_pixel.
  destruct (JS.of_Z (JS.Z_of_byte a) / 255 <? 1)%float; [|reflexivity].
  at_pixel. reflexivity.
Qed.

Lemma quantize_step_local (pre : list byte) (p : pixel) (post : list byte) :
  BaseConversionStrategy.quantize_step (List.length pre) (pre ++ unpack1 p ++ post)
  = pre ++ unpack1 (quantize_pixel p) ++ post.
Proof.
  destruct p as [[[r g] b] a].
  unfold BaseConversionStrategy.quantize_step, quantize_pixel,
    quantize_channel, unpack1.
  cbn [app]. at_pixel. at_pixel. at_pixel. reflexivity.
Qed.

Lemma flatten_pixels (ps : list pixel) :
  JpegConversionStrategy.flatten (unpack ps) = unpack (List.map flatten_pixel ps).
Proof. apply for_step4_pixels, flatten_step_local. Qed.

Lemma quantize_pixels (ps : list pixel) :
  BaseConversionStrategy.quantize (unpack ps)
  = unpack (List.map quantize_pixel ps).
Proof. apply for_step4_pixels, quantize_step_local. Qed.

End LoopBodies.

Section AgreementWithSpec.
Import JS.

(** The compositing arithmetic, done in doubles, gives on every colour
    byte and every alpha byte the nearest integer to the exact blend. *)
Lemma flatten_channel_spec (c a : byte) :
  flatten_channel c a =
  if Z_of_byte a =? 0 then xff
  else if Z_of_byte a =? 255 then c
  else byte_of_Z (blend_on_white (Z_of_byte c) (Z_of_byte a)).
Proof.
  apply Byte.byte_dec_bl.
  apply (forall_bytes2
           (fun a c =>
              Byte.eqb (flatten_channel c a)
                (if Z_of_byte a =? 0 then xff
                 else if Z_of_byte a =? 255 then c
                 else byte_of_Z (blend_on_white (Z_of_byte c) (Z_of_byte a))))).
  vm_compute. reflexivity.
Qed.

Lemma flatten_alpha_spec (a : byte) : flatten_alpha a = xff.
Proof.
  apply Byte.byte_dec_bl.
  apply (forall_bytes (fun a => Byte.eqb (flatten_alpha a) xff)).
  vm_compute. reflexivity.
Qed.

Lemma Z_of_byte_255 (a : byte) : Z_of_byte a = 255 -> a = xff.
Proof.
  intros H. rewrite <- (byte_of_Z_of_byte a), H. reflexivity.
Qed.

Lemma flatten_pixel_spec (p : pixel) : flatten_pixel p = spec_flatten_pixel p.
Proof.
  destruct p as [[[r g] b] a]. unfold flatten_pixel, spec_flatten_pixel.
  rewrite !flatten_channel_spec, flatten_alpha_spec.
  destruct (Z_of_byte a =? 0); [reflexivity|].
  destruct (Z_of_byte a =? 255) eqn:H255; [|reflexivity].
  apply Z.eqb_eq, Z_of_byte_255 in H255. subst a. reflexivity.
Qed.

Lemma quantize_channel_spec (c : byte) :
  quantize_channel c = byte_of_Z (nearest_even (Z_of_byte c)).
Proof.
  apply Byte.byte_dec_bl.
  apply (forall_bytes
           (fun c => Byte.eqb (quantize_channel c)
                       (byte_of_Z (nearest_even (Z_of_byte c))))).
  vm_compute. reflexivity.
Qed.

Lemma quantize_pixel_spec (p : pixel) : quantize_pixel p = spec_quantize_pixel p.
Proof.
  destruct p as [[[r g] b] a]. unfold quantize_pixel, spec_quantize_pixel.
  rewrite !quantize_channel_spec. reflexivity.
Qed.

(** [blend_on_white] is within half a unit of the exact blend
    [(c * alpha + 255 * (255 - alpha)) / 255]. *)
Lemma blend_on_white_nearest (c alpha : Z) :
  2 * Z.abs (255 * blend_on_white c alpha - (c * alpha + 255 * (255 - alpha)))
  < 255.
Proof.
  unfold blend_on_white.
  set (n := c * alpha + 255 * (255 - alpha)).
  pose proof (Z.div_mod (2 * n + 255) 510 ltac:(lia)) as Hdm.
  pose proof (Z.mod_pos_bound (2 * n + 255) 510 ltac:(lia)) as Hb.
  lia.
Qed.

End AgreementWithSpec.

(* ===================================================================== *)
(** ** The quality selector and the complexity analyzer *)
(* ===================================================================== *)

(** C3: the quality selector is a three-bucket step function with the
    thresholds exclusive on the high side: every score above 0.70 gives
    0.92, every score above 0.40 and at most 0.70 gives 0.85, every score
    at most 0.40 gives 0.75; the score 0.70 itself gives 0.85 and 0.70001
    gives 0.92. *)
Theorem selectQuality_three_buckets (s : float) :
  ((0.7 <? s)%float = true ->
     ImageOptimizerService.selectQuality s = 0.92%float) /\
  ((0.4 <? s)%float = true -> (s <=? 0.7)%float = true ->
     ImageOptimizerService.selectQuality s = 0.85%float) /\
  ((s <=? 0.4)%float = true ->
     ImageOptimizerService.selectQuality s = 0.75%float) /\
  ImageOptimizerService.selectQuality 0.7 = 0.85%float /\
  ImageOptimizerService.selectQuality 0.70001 = 0.92%float.
Proof.
  unfold ImageOptimizerService.selectQuality. repeat split.
  - intros ->. reflexivity.
  - intros Hlow Hhigh. rewrite (leb_not_ltb _ _ Hhigh), Hlow. reflexivity.
  - intros Hlow.
    rewrite (leb_not_ltb _ _ Hlow).
    destruct (0.7 <? s)%float eqn:Hhigh; [|reflexivity].
    pose proof (ltb_leb_trans _ _ _ Hhigh Hlow) as Habs.
    vm_compute in Habs. discriminate.
Qed.

Lemma selectQuality_three_buckets_witness :
  ImageOptimizerService.selectQuality 0.9 = 0.92%float /\
  ImageOptimizerService.selectQuality 0.5 = 0.85%float /\
  ImageOptimizerService.selectQuality 0.4 = 0.75%float.
Proof.
  split; [|split].
  - exact (proj1 (selectQuality_three_buckets 0.9) eq_refl).
  - exact (proj1 (proj2 (selectQuality_three_buckets 0.5)) eq_refl eq_refl).
  - exact (proj1 (proj2 (proj2 (selectQuality_three_buckets 0.4))) eq_refl).
Defined.

(** C7, as the claim states it, fails on the empty region: the two
    averages divide by [data.length / 4 = 0], so the score is 0/0 = NaN and
    not 0. *)
Lemma complexity_of_empty_region_is_not_zero :
  ImageOptimizerService.calculateImageComplexity [] <> 0%float.
Proof.
  intros H. apply (f_equal is_nan) in H. vm_compute in H. discriminate.
Qed.

(** C7, amended: for every non-empty sampled region containing fewer than
    2 pixels, that is every region of exactly one pixel (an array of four
    bytes), the complexity analyzer returns score 0: the loop body never
    runs and both averages are 0 / 1. *)
Theorem complexity_of_single_pixel (data : list byte) :
  List.length data = 4%nat ->
  ImageOptimizerService.calculateImageComplexity data = 0%float.
Proof.
  destruct data as [|r [|g [|b [|a [|x data]]]]]; try discriminate.
  intros _. unfold ImageOptimizerService.calculateImageComplexity.
  change (U8.for_step4 (U8.length [r; g; b; a] - 4)
            (ImageOptimizerService.complexity_step [r; g; b; a])
            {| ImageOptimizerService.totalVariance := 0;
               ImageOptimizerService.edgeCount := 0 |})
    with {| ImageOptimizerService.totalVariance := 0;
            ImageOptimizerService.edgeCount := 0 |}.
  reflexivity.
Qed.

Lemma complexity_of_single_pixel_witness :
  ImageOptimizerService.calculateImageComplexity (bytes [12; 200; 7; 255])
  = 0%float.
Proof. apply complexity_of_single_pixel. reflexivity. Defined.

(* ===================================================================== *)
(** ** The optimizer passes *)
(* ===================================================================== *)

(** C4: the YCbCr chroma transform is not idempotent: on a buffer of two
    different pixels, a second application changes the result of the
    first. *)
Theorem psychovisual_not_idempotent :
  exists ps : list pixel,
    (exists p q, In p ps /\ In q ps /\ p <> q) /\
    ImageOptimizerService.applyPsychovisualOptimization
      (ImageOptimizerService.applyPsychovisualOptimization (unpack ps))
    <> ImageOptimizerService.applyPsychovisualOptimization (unpack ps).
Proof.
  exists [rgba 0 0 20 255; rgba 200 100 50 255]. split.
  - exists (rgba 0 0 20 255), (rgba 200 100 50 255).
    repeat split; [left; reflexivity | right; left; reflexivity | discriminate].
  - vm_compute. discriminate.
Qed.

(** C5: the alpha-flatten pre-pass turns every fully transparent pixel into
    opaque white, leaves every fully opaque pixel as it is, and replaces
    each colour channel of every other pixel by its blend with white,
    [c * (alpha/255) + 255 * (1 - alpha/255)] (stored as the nearest
    integer), with the alpha forced to 255. *)
Theorem flatten_meets_spec :
  (forall ps : list pixel,
      JpegConversionStrategy.flatten (unpack ps)
      = unpack (List.map spec_flatten_pixel ps)) /\
  (forall r g b, spec_flatten_pixel (r, g, b, x00) = (xff, xff, xff, xff)) /\
  (forall r g b, spec_flatten_pixel (r, g, b, xff) = (r, g, b, xff)) /\
  (forall r g b a,
      0 < JS.Z_of_byte a < 255 ->
      spec_flatten_pixel (r, g, b, a)
      = (JS.byte_of_Z (blend_on_white (JS.Z_of_byte r) (JS.Z_of_byte a)),
         JS.byte_of_Z (blend_on_white (JS.Z_of_byte g) (JS.Z_of_byte a)),
         JS.byte_of_Z (blend_on_white (JS.Z_of_byte b) (JS.Z_of_byte a)),
         xff)) /\
  (forall c alpha,
      2 * Z.abs (255 * blend_on_white c alpha
                 - (c * alpha + 255 * (255 - alpha))) < 255).
Proof.
  repeat split.
  - intros ps. rewrite flatten_pixels. f_equal.
    apply map_ext. intros p. apply flatten_pixel_spec.
  - intros r g b a [Hlo Hhi]. unfold spec_flatten_pixel.
    destruct (Z.eqb_spec (JS.Z_of_byte a) 0); [lia|].
    destruct (Z.eqb_spec (JS.Z_of_byte a) 255); [lia|]. reflexivity.
  - apply blend_on_white_nearest.
Qed.

Lemma flatten_meets_spec_witness :
  0 < JS.Z_of_byte (JS.byte_of_Z 128) < 255 /\
  spec_flatten_pixel (rgba 10 20 30 128) = rgba 132 137 142 255.
Proof.
  split; [vm_compute; split; reflexivity|].
  unfold rgba.
  rewrite (proj1 (proj2 (proj2 (proj2 flatten_meets_spec)))
             (JS.byte_of_Z 10) (JS.byte_of_Z 20) (JS.byte_of_Z 30)
             (JS.byte_of_Z 128));
    [reflexivity | vm_compute; split; reflexivity].
Defined.

(** C2, as the claim states it, fails: on the single opaque pixel
    (1, 1, 1, 255) the JPEG strategy leaves (2, 2, 2, 255) on the canvas,
    while the chroma transform applied after the flatten pass leaves
    (1, 1, 1, 255). *)
Lemma jpeg_optimizer_is_not_the_chroma_transform :
  JpegConversionStrategy.optimized (bytes [1; 1; 1; 255]) = bytes [2; 2; 2; 255] /\
  ImageOptimizerService.applyPsychovisualOptimization
    (JpegConversionStrategy.flatten (bytes [1; 1; 1; 255])) = bytes [1; 1; 1; 255] /\
  JpegConversionStrategy.optimized (bytes [1; 1; 1; 255])
  <> ImageOptimizerService.applyPsychovisualOptimization
       (JpegConversionStrategy.flatten (bytes [1; 1; 1; 255])).
Proof.
  repeat split; try (vm_compute; reflexivity). vm_compute. discriminate.
Qed.

(** C2, amended: when converting to JPEG with optimize=true, the optimizer
    applied after the alpha-flatten pre-pass is the direct quantization
    inherited from the base strategy: each of R, G and B is rounded to the
    nearest multiple of 2 (ties upwards, clamped to 255), with no colour
    space conversion, and alpha is left as the flatten pass set it. *)
Theorem jpeg_optimizer_is_direct_quantization :
  (forall ps : list pixel,
      JpegConversionStrategy.optimized (unpack ps)
      = unpack (List.map (fun p => spec_quantize_pixel (spec_flatten_pixel p)) ps)) /\
  (forall (canvas canvas' : Canvas) (h h' : heap),
      JpegConversionStrategy.applyOptimization canvas h = Ok canvas' h' ->
      cv_data canvas' = JpegConversionStrategy.optimized (cv_data canvas)).
Proof.
  split.
  - intros ps. unfold JpegConversionStrategy.optimized.
    rewrite flatten_pixels, quantize_pixels, List.map_map. f_equal.
    apply map_ext. intros p.
    rewrite flatten_pixel_spec. apply quantize_pixel_spec.
  - intros canvas canvas' h h'.
    unfold JpegConversionStrategy.applyOptimization,
      BaseConversionStrategy.applyOptimization, update_image_data, bind.
    destruct ((cv_width canvas =? 0) || (cv_height canvas =? 0)) eqn:Hempty;
      cbn; [discriminate|].
    rewrite Hempty. cbn. intros H. injection H as <- _. reflexivity.
Qed.

Lemma jpeg_optimizer_is_direct_quantization_witness :
  cv_data {| cv_width := 1; cv_height := 1; cv_data := bytes [2; 2; 2; 255] |}
  = JpegConversionStrategy.optimized (bytes [1; 1; 1; 255]).
Proof.
  destruct jpeg_optimizer_is_direct_quantization as [_ Hcanvas].
  apply (Hcanvas {| cv_width := 1; cv_height := 1;
                    cv_data := bytes [1; 1; 1; 255] |} _ [] []).
  vm_compute. reflexivity.
Defined.

(** C10: the AVIF optimizer pass is the identity on pixel data: every
    stored channel is an integer in 0..255, so rounding it and storing it
    back leaves every byte as it was, and the canvas the AVIF strategy
    hands to the encoder is the same with optimize true and false. *)
Theorem avif_optimizer_is_identity :
  (forall data : list byte, AvifConversionStrategy.rounded data = data) /\
  (forall Blob (P : Platform Blob) (imageData : loc) (h : heap) (bm : ImageBitmap),
      h !! imageData = Some bm ->
      bm_width bm <> 0 -> bm_height bm <> 0 ->
      AvifConversionStrategy.prepare P imageData true h
      = AvifConversionStrategy.prepare P imageData false h) /\
  (forall Blob (P : Platform Blob) (imageData : loc) (q : float) (h : heap)
          (bm : ImageBitmap),
      h !! imageData = Some bm ->
      bm_width bm <> 0 -> bm_height bm <> 0 ->
      AvifConversionStrategy.convert P imageData q true h
      = AvifConversionStrategy.convert P imageData q false h).
Proof.
  assert (Hbyte : forall b : byte,
             JS.ToUint8Clamp (JS.Math_round (JS.of_Z (JS.Z_of_byte b))) = b).
  { intros b. destruct b; vm_compute; reflexivity. }
  assert (Hid : forall data, AvifConversionStrategy.rounded data = data).
  { intros data. unfold AvifConversionStrategy.rounded.
    apply for_step4_id. intros i. unfold AvifConversionStrategy.round_step.
    rewrite !(set_same _ _ JS.Math_round) by exact Hbyte. reflexivity. }
  assert (Hprep : forall Blob (P : Platform Blob) imageData h bm,
             h !! imageData = Some bm ->
             bm_width bm <> 0 -> bm_height bm <> 0 ->
             AvifConversionStrategy.prepare P imageData true h
             = AvifConversionStrategy.prepare P imageData false h).
  { intros Blob P l h bm Hl Hw Hh.
    unfold AvifConversionStrategy.prepare, bind, deref. rewrite Hl.
    destruct (getContext P _); cbn [negb]; [|reflexivity].
    unfold drawImage. destruct (bm_detached bm); [reflexivity|].
    unfold ret, AvifConversionStrategy.applyOptimization, update_image_data.
    cbn [cv_width cv_height cv_data BaseConversionStrategy.createCanvas new_canvas].
    destruct (Z.eqb_spec (bm_width bm) 0); [contradiction|].
    destruct (Z.eqb_spec (bm_height bm) 0); [contradiction|].
    cbn [orb]. unfold ret. rewrite Hid. reflexivity. }
  split; [exact Hid|]. split; [exact Hprep|].
  intros Blob P l q h bm Hl Hw Hh.
  unfold AvifConversionStrategy.convert, bind.
  rewrite (Hprep Blob P l h bm Hl Hw Hh). reflexivity.
Qed.

Lemma avif_optimizer_is_identity_witness :
  let P := Fixtures.recorder (Fixtures.bitmap 1 1 (bytes [9; 8; 7; 6])) in
  let h := [Fixtures.bitmap 1 1 (bytes [9; 8; 7; 6])] in
  AvifConversionStrategy.prepare P 0%nat true h
  = AvifConversionStrategy.prepare P 0%nat false h /\
  AvifConversionStrategy.convert P 0%nat 0.5 true h
  = Ok {| Fixtures.req_format := AVIF; Fixtures.req_quality := 0.5;
          Fixtures.req_data := bytes [9; 8; 7; 6] |} h.
Proof.
  intros P h. split.
  - apply (proj1 (proj2 avif_optimizer_is_identity) _ P 0%nat h
             (Fixtures.bitmap 1 1 (bytes [9; 8; 7; 6])));
      [reflexivity | discriminate | discriminate].
  - rewrite (proj2 (proj2 avif_optimizer_is_identity) _ P 0%nat 0.5%float h
               (Fixtures.bitmap 1 1 (bytes [9; 8; 7; 6])));
      [reflexivity | reflexivity | discriminate | discriminate].
Defined.

(* ===================================================================== *)
(** ** Validation and resizing *)
(* ===================================================================== *)

(** C9: [isValidImage] at a file whose declared type is an image type and
    whose extension, [constructor], is not among the supported ones: the
    [in] operator finds the key on [Object.prototype] and the file is
    accepted. *)
Theorem isValidImage_accepts_inherited_key :
  let file := Fixtures.file "photo.constructor" "image/png" in
  ImageProcessorService.extension_of (file_name file) = "constructor"%string /\
  JS.mem_string "constructor" (List.map fst IMAGE_EXTENSIONS) = false /\
  JS.startsWith (file_type file) "image/" = true /\
  ImageProcessorService.isValidImage file = true.
Proof. repeat split. Qed.

(** C6: with maintainAspectRatio=true the width constraint is applied
    first and the height constraint second; a 1000 x 500 source with
    maxWidth=500 is resized to exactly 500 x 250, and a 500 x 1000 source
    with maxHeight=300 to exactly 150 x 300. *)
Theorem resize_keeps_aspect_ratio {Blob} (P : Platform Blob)
    (Hctx : forall c, getContext P c = true)
    (Hpng : forall c, pngRoundTrip P c = true)
    (f : ImageFormat) (q : float) (opt : bool) (data : list byte) :
  (forall (w h : float) (o : ProcessingOptions),
      maintainAspectRatio o = true ->
      ImageProcessorService.resizeDimensions w h o =
      let aspectRatio := (w / h)%float in
      let afterWidth :=
        match maxWidth o with
        | Some mw =>
            if JS.truthy mw && (mw <? w)%float
            then (mw, JS.Math_round (mw / aspectRatio)%float)
            else (w, h)
        | None => (w, h)
        end in
      match maxHeight o with
      | Some mh =>
          if JS.truthy mh && (mh <? snd afterWidth)%float
          then (JS.Math_round (mh * aspectRatio)%float, mh)
          else afterWidth
      | None => afterWidth
      end) /\
  ImageProcessorService.resizeDimensions 1000 3
    (Fixtures.options f q opt (Some 400%float) (Some 1%float))
  = (400%float, 1%float) /\
  (let h := [Fixtures.bitmap 1000 500 data] in
   let o := Fixtures.options f q opt (Some 500%float) None in
   ImageProcessorService.shouldResize 0%nat o h = Ok true h /\
   exists bm,
     ImageProcessorService.resizeImage P 0%nat o h = Ok 1%nat (h ++ [bm]) /\
     bm_width bm = 500 /\ bm_height bm = 250) /\
  (let h := [Fixtures.bitmap 500 1000 data] in
   let o := Fixtures.options f q opt None (Some 300%float) in
   ImageProcessorService.shouldResize 0%nat o h = Ok true h /\
   exists bm,
     ImageProcessorService.resizeImage P 0%nat o h = Ok 1%nat (h ++ [bm]) /\
     bm_width bm = 150 /\ bm_height bm = 300).
Proof.
  split; [|split; [reflexivity|split]].
  - intros w h o Hkeep. unfold ImageProcessorService.resizeDimensions.
    rewrite Hkeep. cbn zeta.
    destruct (maxWidth o) as [mw|]; [destruct (JS.truthy mw && (mw <? w)%float)|];
      cbn [snd]; destruct (maxHeight o) as [mh|]; try reflexivity;
      match goal with
      | |- context [if ?c then _ else _] => destruct c; reflexivity
      end.
  - cbn zeta. split; [reflexivity|].
    eexists. unfold ImageProcessorService.resizeImage, bind, deref.
    cbn [lookup list_lookup bm_width bm_height Fixtures.bitmap].
    change (ImageProcessorService.resizeDimensions (JS.of_Z 1000) (JS.of_Z 500)
              (Fixtures.options f q opt (Some 500%float) None))
      with (500%float, 250%float).
    cbn iota beta. rewrite Hctx, Hpng. cbn [negb bm_detached Fixtures.bitmap].
    split; [reflexivity|]. split; reflexivity.
  - cbn zeta. split; [reflexivity|].
    eexists. unfold ImageProcessorService.resizeImage, bind, deref.
    cbn [lookup list_lookup bm_width bm_height Fixtures.bitmap].
    change (ImageProcessorService.resizeDimensions (JS.of_Z 500) (JS.of_Z 1000)
              (Fixtures.options f q opt None (Some 300%float)))
      with (150%float, 300%float).
    cbn iota beta. rewrite Hctx, Hpng. cbn [negb bm_detached Fixtures.bitmap].
    split; [reflexivity|]. split; reflexivity.
Qed.

Lemma resize_keeps_aspect_ratio_witness :
  let P := Fixtures.recorder (Fixtures.bitmap 1000 500 []) in
  let h := [Fixtures.bitmap 1000 500 []] in
  let o := Fixtures.options WEBP 0.8 true (Some 500%float) None in
  exists bm,
    ImageProcessorService.resizeImage P 0%nat o h = Ok 1%nat (h ++ [bm]) /\
    bm_width bm = 500 /\ bm_height bm = 250.
Proof.
  intros P h o.
  exact (proj2 (proj1 (proj2 (proj2
           (resize_keeps_aspect_ratio P (fun _ => eq_refl) (fun _ => eq_refl)
              WEBP 0.8%float true []))))).
Defined.

(* ===================================================================== *)
(** ** The pipeline *)
(* ===================================================================== *)

Section Pipeline.
Context {Blob : Type}.

Lemma bind_Ok {A B} (m : M A) (k : A -> M B) (h h' : heap) (b : B) :
  bind m k h = Ok b h' ->
  exists a h1, m h = Ok a h1 /\ k a h1 = Ok b h'.
Proof.
  unfold bind. destruct (m h) as [a h1|msg]; [|discriminate].
  intros Hk. exists a, h1. split; [reflexivity | exact Hk].
Qed.

Lemma deref_Ok (l : loc) (h h' : heap) (bm : ImageBitmap) :
  deref l h = Ok bm h' -> h !! l = Some bm /\ h' = h.
Proof.
  unfold deref. destruct (h !! l) as [bm'|]; [|discriminate].
  intros H. injection H as -> ->. split; reflexivity.
Qed.

Lemma width_of_Ok (l : loc) (h h' : heap) (w : Z) :
  width_of l h = Ok w h' ->
  exists bm, h !! l = Some bm /\ w = bm_width bm /\ h' = h.
Proof.
  unfold width_of. intros H. apply bind_Ok in H as (bm & h1 & Hd & Hr).
  apply deref_Ok in Hd as [Hl ->]. injection Hr as <- <-.
  exists bm. repeat split; assumption.
Qed.

Lemma height_of_Ok (l : loc) (h h' : heap) (w : Z) :
  height_of l h = Ok w h' ->
  exists bm, h !! l = Some bm /\ w = bm_height bm /\ h' = h.
Proof.
  unfold height_of. intros H. apply bind_Ok in H as (bm & h1 & Hd & Hr).
  apply deref_Ok in Hd as [Hl ->]. injection Hr as <- <-.
  exists bm. repeat split; assumption.
Qed.

(** What [process_convert] returns, and from which heap. *)
Lemma process_convert_Ok (P : Platform Blob) (file : File)
    (options : ProcessingOptions) (pre : ImageProcessorService.Prepared Blob)
    (h h' : heap) (r : ProcessingResult Blob) :
  ImageProcessorService.process_convert P file options pre h = Ok r h' ->
  exists bm h2,
    h !! ImageProcessorService.p_resizedBitmap pre = Some bm /\
    width r = bm_width bm /\ height r = bm_height bm /\
    convert (ImageProcessorService.p_strategy pre)
      (ImageProcessorService.p_resizedBitmap pre)
      (ImageProcessorService.p_quality pre) (optimize options) h
    = Ok (blob r) h2.
Proof.
  unfold ImageProcessorService.process_convert. intros H.
  apply bind_Ok in H as (w & h1 & Hw & H).
  apply width_of_Ok in Hw as (bm & Hl & -> & ->).
  apply bind_Ok in H as (w' & h1 & Hh & H).
  apply height_of_Ok in Hh as (bm' & Hl' & -> & ->).
  rewrite Hl in Hl'. injection Hl' as <-.
  apply bind_Ok in H as (b & h2 & Hc & H).
  apply bind_Ok in H as (u & h3 & _ & H).
  apply bind_Ok in H as (u' & h4 & _ & H).
  injection H as <- _.
  exists bm, h2. repeat split; assumption.
Qed.

(** Each built-in strategy encodes at [encoder_quality]. *)
Lemma builtin_convert_Ok (P : Platform Blob) (f : ImageFormat)
    (s : IConversionStrategy Blob) (l : loc) (q : float) (opt : bool)
    (h h' : heap) (b : Blob) :
  ConversionStrategyFactory.initial P f = Some s ->
  convert s l q opt h = Ok b h' ->
  exists canvas, toBlob P canvas f (encoder_quality f q) = Some b.
Proof.
  intros Hs. injection Hs as <-.
  destruct f; cbn [convert JpegConversionStrategy.strategy
                     PngConversionStrategy.strategy
                     WebpConversionStrategy.strategy
                     AvifConversionStrategy.strategy
                     GifConversionStrategy.strategy
                     BmpConversionStrategy.strategy encoder_quality];
    unfold BaseConversionStrategy.convert, PngConversionStrategy.convert,
      AvifConversionStrategy.convert, AvifConversionStrategy.prepare,
      GifConversionStrategy.convert, BmpConversionStrategy.convert,
      BaseConversionStrategy.canvasToBlob, bind, throw, ret;
    intros H;
    repeat match type of H with
           | context [toBlob P ?c ?f ?q] =>
               let E := fresh "E" in
               destruct (toBlob P c f q) eqn:E; try discriminate
           | context [match ?x with _ => _ end] =>
               let E := fresh "E" in destruct x eqn:E; try discriminate
           end;
    injection H as <- _; eexists; eassumption.
Qed.

End Pipeline.

Section PrepareFacts.
Context {Blob : Type}.

(** What [process_prepare] returns: the strategy registered for the
    target format, and the quality chosen by the gate on [optimize] and
    the presence of an optimizer. *)
Lemma process_prepare_Ok (P : Platform Blob) (m : strategies Blob)
    (optimizer : option IImageOptimizer) (file : File)
    (options : ProcessingOptions) (h h1 : heap)
    (pre : ImageProcessorService.Prepared Blob) :
  ImageProcessorService.process_prepare P m optimizer file options h = Ok pre h1 ->
  m (targetFormat options) = Some (ImageProcessorService.p_strategy pre) /\
  match optimizer with
  | Some o =>
      if optimize options
      then exists h0,
          calculateOptimalQuality o (ImageProcessorService.p_resizedBitmap pre) h0
          = Ok (ImageProcessorService.p_quality pre) h1
      else ImageProcessorService.p_quality pre = quality options
  | None => ImageProcessorService.p_quality pre = quality options
  end.
Proof.
  unfold ImageProcessorService.process_prepare.
  destruct (ImageProcessorService.isValidImage file); cbn [negb];
    [|discriminate].
  intros H.
  apply bind_Ok in H as (imageBitmap & ha & _ & H).
  apply bind_Ok in H as (resize & hb & _ & H).
  apply bind_Ok in H as (resizedBitmap & hc & _ & H).
  apply bind_Ok in H as (strategy & hd & Hs & H).
  apply bind_Ok in H as (q & he & Hq & H).
  injection H as <- <-. cbn.
  unfold ConversionStrategyFactory.getStrategy in Hs.
  destruct (m (targetFormat options)) as [s|]; [|discriminate].
  injection Hs as <- <-. split; [reflexivity|].
  destruct optimizer as [o|], (optimize options);
    try (injection Hq as <- _; reflexivity).
  exists hc. exact Hq.
Qed.

End PrepareFacts.

(** C8: for every successful conversion, whatever strategy is registered
    for the target format and whatever it does to the bitmap it is given,
    the width and height of the result are those the resized bitmap has in
    the heap that [convert] is then started from. *)
Theorem result_dimensions_saved_before_convert {Blob} (P : Platform Blob)
    (m : strategies Blob) (optimizer : option IImageOptimizer)
    (file : File) (options : ProcessingOptions) (h h' : heap)
    (r : ProcessingResult Blob) :
  ImageProcessorService.process P m optimizer file options h = Ok r h' ->
  exists pre h1 bm h2,
    ImageProcessorService.process_prepare P m optimizer file options h
    = Ok pre h1 /\
    h1 !! ImageProcessorService.p_resizedBitmap pre = Some bm /\
    width r = bm_width bm /\
    height r = bm_height bm /\
    convert (ImageProcessorService.p_strategy pre)
      (ImageProcessorService.p_resizedBitmap pre)
      (ImageProcessorService.p_quality pre) (optimize options) h1
    = Ok (blob r) h2.
Proof.
  unfold ImageProcessorService.process. intros H.
  apply bind_Ok in H as (pre & h1 & Hpre & Hconv).
  apply process_convert_Ok in Hconv as (bm & h2 & Hl & Hw & Hh & Hc).
  exists pre, h1, bm, h2. repeat split; assumption.
Qed.

(** A strategy that closes its input: the result still reports 2 x 1, and
    the bitmap in the final heap is closed. *)
Lemma result_dimensions_saved_before_convert_witness :
  let P := Fixtures.recorder (Fixtures.bitmap 2 1 (bytes [1; 2; 3; 4; 5; 6; 7; 8])) in
  let m : strategies Fixtures.Request := fun _ => Some Fixtures.closing_strategy in
  let file := Fixtures.file "a.png" "image/png" in
  let options := Fixtures.options PNG 0.5 false None None in
  exists r h',
    ImageProcessorService.process P m None file options [] = Ok r h' /\
    width r = 2 /\ height r = 1 /\ h' = [closed_bitmap] /\
    exists pre h1 bm h2,
      ImageProcessorService.process_prepare P m None file options [] = Ok pre h1 /\
      h1 !! ImageProcessorService.p_resizedBitmap pre = Some bm /\
      width r = bm_width bm /\
      height r = bm_height bm /\
      convert (ImageProcessorService.p_strategy pre)
        (ImageProcessorService.p_resizedBitmap pre)
        (ImageProcessorService.p_quality pre) (optimize options) h1
      = Ok (blob r) h2.
Proof.
  intros P m file options.
  eexists. eexists.
  split; [vm_compute; reflexivity|].
  split; [reflexivity|]. split; [reflexivity|]. split; [reflexivity|].
  apply (result_dimensions_saved_before_convert P m None file options []
           [closed_bitmap]).
  vm_compute. reflexivity.
Defined.

(** C1, as the claim states it, fails: with optimize=true the quality the
    caller supplies (here 0.5) is replaced by the selected one (0.75 for a
    uniform image) before it reaches the encoder; and with optimize=false a
    PNG conversion encodes at 1.0 whatever the caller supplies. *)
Lemma caller_quality_is_not_passed_through :
  let P := Fixtures.recorder (Fixtures.bitmap 1 1 (bytes [7; 7; 7; 255])) in
  (exists r h',
      ImageProcessorService.process P (ConversionStrategyFactory.initial P)
        (Some (imageOptimizerService P)) (Fixtures.file "a.jpg" "image/jpeg")
        (Fixtures.options JPEG 0.5 true None None) [] = Ok r h' /\
      Fixtures.req_quality (blob r) = 0.75%float /\
      Fixtures.req_quality (blob r) <> 0.5%float) /\
  (exists r h',
      ImageProcessorService.process P (ConversionStrategyFactory.initial P)
        (Some (imageOptimizerService P)) (Fixtures.file "a.jpg" "image/jpeg")
        (Fixtures.options PNG 0.5 false None None) [] = Ok r h' /\
      Fixtures.req_quality (blob r) = 1.0%float /\
      Fixtures.req_quality (blob r) <> 0.5%float).
Proof.
  intros P. split; eexists; eexists;
    (split; [vm_compute; reflexivity|]);
    (split; [reflexivity|]);
    intros H; apply (f_equal (fun x => (x <? 0.6)%float)) in H;
    vm_compute in H; discriminate.
Qed.

(** C1, amended: the automatic quality selection runs exactly when
    optimize is set and an optimizer is configured, whether or not the
    caller supplied a quality, and its result replaces the caller's value;
    when optimize is false or no optimizer is configured the caller's
    quality is handed to the strategy unchanged.  The built-in strategies
    pass the quality they are handed to the encoder for JPEG, WebP and
    AVIF, and encode PNG, GIF and BMP at 1.0. *)
Theorem quality_passed_to_encoder {Blob} (P : Platform Blob)
    (optimizer : option IImageOptimizer)
    (file : File) (options : ProcessingOptions) (h h' : heap)
    (r : ProcessingResult Blob) :
  ImageProcessorService.process P (ConversionStrategyFactory.initial P)
    optimizer file options h = Ok r h' ->
  exists pre h1 canvas,
    ImageProcessorService.process_prepare P (ConversionStrategyFactory.initial P)
      optimizer file options h = Ok pre h1 /\
    match optimizer with
    | Some o =>
        if optimize options
        then exists h0,
            calculateOptimalQuality o (ImageProcessorService.p_resizedBitmap pre) h0
            = Ok (ImageProcessorService.p_quality pre) h1
        else ImageProcessorService.p_quality pre = quality options
    | None => ImageProcessorService.p_quality pre = quality options
    end /\
    toBlob P canvas (targetFormat options)
      (encoder_quality (targetFormat options) (ImageProcessorService.p_quality pre))
    = Some (blob r).
Proof.
  unfold ImageProcessorService.process. intros H.
  apply bind_Ok in H as (pre & h1 & Hpre & Hconv).
  destruct (process_prepare_Ok _ _ _ _ _ _ _ _ Hpre) as [Hs Hq].
  apply process_convert_Ok in Hconv as (bm & h2 & _ & _ & _ & Hc).
  destruct (builtin_convert_Ok _ _ _ _ _ _ _ _ _ Hs Hc) as [canvas Hblob].
  exists pre, h1, canvas. repeat split; assumption.
Qed.

Lemma quality_passed_to_encoder_witness :
  let bm := Fixtures.bitmap 1 1 (bytes [7; 7; 7; 255]) in
  let P := Fixtures.recorder bm in
  let options := Fixtures.options WEBP 0.5 false None None in
  exists pre h1 canvas,
    ImageProcessorService.process_prepare P (ConversionStrategyFactory.initial P)
      (Some (imageOptimizerService P)) (Fixtures.file "a.webp" "image/webp")
      options [] = Ok pre h1 /\
    ImageProcessorService.p_quality pre = 0.5%float /\
    toBlob P canvas WEBP 0.5
    = Some {| Fixtures.req_format := WEBP; Fixtures.req_quality := 0.5;
              Fixtures.req_data := bytes [7; 7; 7; 255] |}.
Proof.
  intros bm P options.
  destruct (quality_passed_to_encoder P (Some (imageOptimizerService P))
              (Fixtures.file "a.webp" "image/webp") options [] [closed_bitmap]
              {| blob := {| Fixtures.req_format := WEBP;
                            Fixtures.req_quality := 0.5;
                            Fixtures.req_data := bytes [7; 7; 7; 255] |};
                 format := WEBP; originalSize := 4; processedSize := 4;
                 width := 1; height := 1 |})
    as (pre & h1 & canvas & Hpre & Hq & Hblob).
  - vm_compute. reflexivity.
  - exists pre, h1, canvas. cbn in Hq, Hblob. rewrite Hq in Hblob.
    split; [exact Hpre|]. split; [exact Hq | exact Hblob].
Defined.

(* ===================================================================== *)
(** ** More on the optimizer passes *)
(* ===================================================================== *)

Section MorePasses.
Import JS U8.

Ltac in_pixel :=
  repeat first
    [ rewrite get_app_0 | rewrite get_app_r
    | rewrite set_app_0 | rewrite set_app_r ];
  cbn [get set lookup list_lookup insert list_insert app].

Lemma png_step_local (pre : list byte) (p : pixel) (post : list byte) :
  PngConversionStrategy.png_step (List.length pre) (pre ++ unpack1 p ++ post)
  = pre ++ unpack1 (png_pixel p) ++ post.
Proof.
  destruct p as [[[r g] b] a].
  unfold PngConversionStrategy.png_step, png_pixel, png_channel, unpack1.
  cbn [app]. in_pixel. in_pixel. in_pixel. reflexivity.
Qed.

Lemma webp_step_local (pre : list byte) (p : pixel) (post : list byte) :
  WebpConversionStrategy.webp_step (List.length pre) (pre ++ unpack1 p ++ post)
  = pre ++ unpack1 (webp_pixel p) ++ post.
Proof.
  destruct p as [[[r g] b] a].
  unfold WebpConversionStrategy.webp_step, webp_pixel, webp_channel, unpack1.
  cbn [app]. in_pixel. in_pixel. in_pixel. reflexivity.
Qed.

Lemma psychovisual_step_local (pre : list byte) (p : pixel) (post : list byte) :
  ImageOptimizerService.psychovisual_step (List.length pre)
    (pre ++ unpack1 p ++ post)
  = pre ++ unpack1 (psychovisual_pixel p) ++ post.
Proof.
  destruct p as [[[r g] b] a].
  unfold ImageOptimizerService.psychovisual_step, psychovisual_pixel, unpack1.
  cbn [app]. in_pixel. in_pixel. in_pixel. reflexivity.
Qed.

Lemma png_pixels (ps : list pixel) :
  png_quantize (unpack ps) = unpack (List.map png_pixel ps).
Proof. apply for_step4_pixels, png_step_local. Qed.

Lemma webp_pixels (ps : list pixel) :
  webp_quantize (unpack ps) = unpack (List.map webp_pixel ps).
Proof. apply for_step4_pixels, webp_step_local. Qed.

Lemma psychovisual_pixels (ps : list pixel) :
  ImageOptimizerService.applyPsychovisualOptimization (unpack ps)
  = unpack (List.map psychovisual_pixel ps).
Proof. apply for_step4_pixels, psychovisual_step_local. Qed.

(** A pass that maps an idempotent pixel function is idempotent. *)
Lemma map_pixels_idempotent (f : pixel -> pixel) (ps : list pixel) :
  (forall p, f (f p) = f p) ->
  List.map f (List.map f ps) = List.map f ps.
Proof.
  intros Hf. rewrite List.map_map. apply map_ext. exact Hf.
Qed.

Lemma alphas_map (f : pixel -> pixel) (ps : list pixel) :
  (forall p, snd (f p) = snd p) -> alphas (List.map f ps) = alphas ps.
Proof.
  intros Hf. unfold alphas. rewrite List.map_map. apply map_ext. exact Hf.
Qed.

End MorePasses.

Section PassSpecs.
Import JS.

Lemma png_channel_spec (c : byte) :
  png_channel c = byte_of_Z (nearest_multiple_of_4 (Z_of_byte c)).
Proof.
  apply Byte.byte_dec_bl.
  apply (forall_bytes
           (fun c => Byte.eqb (png_channel c)
                       (byte_of_Z (nearest_multiple_of_4 (Z_of_byte c))))).
  vm_compute. reflexivity.
Qed.

Lemma webp_channel_spec (c : byte) :
  webp_channel c = byte_of_Z (webp_value (Z_of_byte c)).
Proof.
  apply Byte.byte_dec_bl.
  apply (forall_bytes
           (fun c => Byte.eqb (webp_channel c)
                       (byte_of_Z (webp_value (Z_of_byte c))))).
  vm_compute. reflexivity.
Qed.

Lemma png_pixel_spec (p : pixel) : png_pixel p = spec_png_pixel p.
Proof.
  destruct p as [[[r g] b] a]. unfold png_pixel, spec_png_pixel.
  rewrite !png_channel_spec. reflexivity.
Qed.

Lemma webp_pixel_spec (p : pixel) : webp_pixel p = spec_webp_pixel p.
Proof.
  destruct p as [[[r g] b] a]. unfold webp_pixel, spec_webp_pixel.
  rewrite !webp_channel_spec. reflexivity.
Qed.

Lemma png_channel_idempotent (c : byte) :
  png_channel (png_channel c) = png_channel c.
Proof.
  apply Byte.byte_dec_bl.
  apply (forall_bytes
           (fun c => Byte.eqb (png_channel (png_channel c)) (png_channel c))).
  vm_compute. reflexivity.
Qed.

Lemma webp_channel_idempotent (c : byte) :
  webp_channel (webp_channel c) = webp_channel c.
Proof.
  apply Byte.byte_dec_bl.
  apply (forall_bytes
           (fun c => Byte.eqb (webp_channel (webp_channel c)) (webp_channel c))).
  vm_compute. reflexivity.
Qed.

Lemma quantize_channel_idempotent (c : byte) :
  quantize_channel (quantize_channel c) = quantize_channel c.
Proof.
  apply Byte.byte_dec_bl.
  apply (forall_bytes
           (fun c => Byte.eqb (quantize_channel (quantize_channel c))
                       (quantize_channel c))).
  vm_compute. reflexivity.
Qed.

Lemma Z_of_byte_of_Z (z : Z) : 0 <= z < 256 -> Z_of_byte (byte_of_Z z) = z.
Proof.
  intros Hz. unfold byte_of_Z, Z_of_byte. rewrite Z.mod_small by lia.
  destruct (Byte.of_N (Z.to_N z)) as [b|] eqn:Hb.
  - apply Byte.to_of_N in Hb. rewrite Hb. lia.
  - apply Byte.of_N_None_iff in Hb. lia.
Qed.

End PassSpecs.

(** X1: on every ImageData array the PNG optimization pass replaces each of
    R, G and B by the nearest multiple of 4 (ties upwards, 256 clamped to
    255) and keeps every alpha byte; no channel moves by more than 2. *)
Theorem png_pass_rounds_to_multiples_of_4 :
  (forall ps : list pixel,
      png_quantize (unpack ps) = unpack (List.map spec_png_pixel ps)) /\
  (forall ps : list pixel,
      alphas (List.map spec_png_pixel ps) = alphas ps) /\
  (forall c : Z,
      0 <= c <= 255 ->
      0 <= nearest_multiple_of_4 c <= 255 /\
      Z.abs (nearest_multiple_of_4 c - c) <= 2 /\
      (nearest_multiple_of_4 c mod 4 = 0 \/ nearest_multiple_of_4 c = 255)) /\
  (forall (canvas canvas' : Canvas) (h h' : heap),
      PngConversionStrategy.applyPngOptimization canvas h = Ok canvas' h' ->
      cv_data canvas' = png_quantize (cv_data canvas)).
Proof.
  split; [|split; [|split]].
  - intros ps. rewrite png_pixels. f_equal. apply map_ext, png_pixel_spec.
  - intros ps. apply alphas_map. intros [[[r g] b] a]. reflexivity.
  - intros c Hc. unfold nearest_multiple_of_4.
    pose proof (Z.div_mod (c + 2) 4 ltac:(lia)) as Hdm.
    pose proof (Z.mod_pos_bound (c + 2) 4 ltac:(lia)) as Hb.
    destruct (Z.min_spec 255 (4 * ((c + 2) / 4))) as [[Hlt ->]|[Hge ->]].
    + split; [lia|]. split; [lia|]. right. reflexivity.
    + split; [lia|]. split; [lia|]. left.
      rewrite Z.mul_comm. apply Z.mod_mul. lia.
  - intros canvas canvas' h h'.
    unfold PngConversionStrategy.applyPngOptimization, update_image_data.
    destruct ((cv_width canvas =? 0) || (cv_height canvas =? 0));
      [discriminate|].
    intros H. injection H as <- _. reflexivity.
Qed.

Lemma png_pass_rounds_to_multiples_of_4_witness :
  0 <= nearest_multiple_of_4 254 <= 255 /\
  Z.abs (nearest_multiple_of_4 254 - 254) <= 2 /\
  (nearest_multiple_of_4 254 mod 4 = 0 \/ nearest_multiple_of_4 254 = 255).
Proof.
  apply (proj1 (proj2 (proj2 png_pass_rounds_to_multiples_of_4)) 254). lia.
Defined.

(** X2: on every ImageData array the WebP optimization pass keeps every
    alpha byte and every channel value except those that are 1 or 5 modulo
    6, which move by exactly one (1 to 2, 5 to 4, 7 to 8, ...); so no
    channel moves by more than 1. *)
Theorem webp_pass_moves_by_at_most_one :
  (forall ps : list pixel,
      webp_quantize (unpack ps) = unpack (List.map spec_webp_pixel ps)) /\
  (forall ps : list pixel,
      alphas (List.map spec_webp_pixel ps) = alphas ps) /\
  (forall c : Z,
      0 <= c <= 255 ->
      0 <= webp_value c <= 255 /\ Z.abs (webp_value c - c) <= 1) /\
  (forall (canvas canvas' : Canvas) (h h' : heap),
      WebpConversionStrategy.applyOptimization canvas h = Ok canvas' h' ->
      cv_data canvas' = webp_quantize (cv_data canvas)).
Proof.
  split; [|split; [|split]].
  - intros ps. rewrite webp_pixels. f_equal. apply map_ext, webp_pixel_spec.
  - intros ps. apply alphas_map. intros [[[r g] b] a]. reflexivity.
  - intros c Hc. unfold webp_value.
    pose proof (Z.div_mod c 6 ltac:(lia)) as Hdm.
    destruct (Z.eqb_spec (c mod 6) 1); [lia|].
    destruct (Z.eqb_spec (c mod 6) 5); lia.
  - intros canvas canvas' h h'.
    unfold WebpConversionStrategy.applyOptimization, update_image_data.
    destruct ((cv_width canvas =? 0) || (cv_height canvas =? 0));
      [discriminate|].
    intros H. injection H as <- _. reflexivity.
Qed.

Lemma webp_pass_moves_by_at_most_one_witness :
  0 <= webp_value 5 <= 255 /\ Z.abs (webp_value 5 - 5) <= 1.
Proof.
  apply (proj1 (proj2 (proj2 webp_pass_moves_by_at_most_one)) 5). lia.
Defined.

(** X3: the three direct quantization passes (the base pass used for JPEG,
    the PNG pass and the WebP pass) are idempotent on every ImageData
    array: a second application changes nothing. *)
Theorem direct_quantization_idempotent (ps : list pixel) :
  BaseConversionStrategy.quantize (BaseConversionStrategy.quantize (unpack ps))
  = BaseConversionStrategy.quantize (unpack ps) /\
  png_quantize (png_quantize (unpack ps)) = png_quantize (unpack ps) /\
  webp_quantize (webp_quantize (unpack ps)) = webp_quantize (unpack ps).
Proof.
  split; [|split].
  - rewrite !quantize_pixels. f_equal.
    apply map_pixels_idempotent. intros [[[r g] b] a].
    unfold quantize_pixel. rewrite !quantize_channel_idempotent. reflexivity.
  - rewrite !png_pixels. f_equal.
    apply map_pixels_idempotent. intros [[[r g] b] a].
    unfold png_pixel. rewrite !png_channel_idempotent. reflexivity.
  - rewrite !webp_pixels. f_equal.
    apply map_pixels_idempotent. intros [[[r g] b] a].
    unfold webp_pixel. rewrite !webp_channel_idempotent. reflexivity.
Qed.

Section MorePassFacts.
Import JS U8.

Lemma flatten_pixel_opaque (p : pixel) : snd (flatten_pixel p) = xff.
Proof. destruct p as [[[r g] b] a]. apply flatten_alpha_spec. Qed.

Lemma flatten_pixel_of_opaque (r g b : byte) :
  flatten_pixel (r, g, b, xff) = (r, g, b, xff).
Proof. rewrite flatten_pixel_spec. reflexivity. Qed.

Lemma jpeg_pixel_idempotent (p : pixel) :
  quantize_pixel (flatten_pixel (quantize_pixel (flatten_pixel p)))
  = quantize_pixel (flatten_pixel p).
Proof.
  pose proof (flatten_pixel_opaque p) as Ha.
  destruct (flatten_pixel p) as [[[r g] b] a]. cbn in Ha. subst a.
  cbn [quantize_pixel]. rewrite flatten_pixel_of_opaque.
  cbn [quantize_pixel]. rewrite !quantize_channel_idempotent. reflexivity.
Qed.

Lemma jpeg_pixels (ps : list pixel) :
  JpegConversionStrategy.optimized (unpack ps)
  = unpack (List.map (fun p => quantize_pixel (flatten_pixel p)) ps).
Proof.
  unfold JpegConversionStrategy.optimized.
  rewrite flatten_pixels, quantize_pixels, List.map_map. reflexivity.
Qed.

Lemma psychovisual_pixel_grey (v a : byte) :
  psychovisual_pixel (v, v, v, a) = (v, v, v, a).
Proof.
  assert (Hv : (let '(r, g, b, _) := psychovisual_pixel (v, v, v, x00) in
                Byte.eqb r v && Byte.eqb g v && Byte.eqb b v) = true).
  { apply (forall_bytes
             (fun v => let '(r, g, b, _) := psychovisual_pixel (v, v, v, x00) in
                       Byte.eqb r v && Byte.eqb g v && Byte.eqb b v)).
    vm_compute. reflexivity. }
  unfold psychovisual_pixel in *. cbv zeta in *.
  apply andb_prop in Hv as [Hv Hb]. apply andb_prop in Hv as [Hr Hg].
  apply Byte.byte_dec_bl in Hr, Hg, Hb. rewrite Hr, Hg, Hb. reflexivity.
Qed.



End MorePassFacts.

(** X4: whatever the alpha values of the input, the array the JPEG
    optimization leaves on the canvas has the same number of pixels, all of
    them fully opaque, and applying the JPEG optimization to it again
    changes nothing. *)
Theorem jpeg_pass_output_is_opaque (ps : list pixel) :
  (exists qs : list pixel,
      JpegConversionStrategy.optimized (unpack ps) = unpack qs /\
      List.length qs = List.length ps /\
      alphas qs = repeat xff (List.length ps)) /\
  JpegConversionStrategy.optimized (JpegConversionStrategy.optimized (unpack ps))
  = JpegConversionStrategy.optimized (unpack ps).
Proof.
  split.
  - exists (List.map (fun p => quantize_pixel (flatten_pixel p)) ps).
    split; [apply jpeg_pixels|]. split; [apply length_map|].
    unfold alphas. rewrite List.map_map.
    induction ps as [|p ps IH]; [reflexivity|].
    cbn [List.map List.length repeat]. rewrite IH. f_equal.
    pose proof (flatten_pixel_opaque p) as Ha.
    destruct (flatten_pixel p) as [[[r g] b] a]. exact Ha.
  - rewrite !jpeg_pixels. f_equal. rewrite List.map_map.
    apply map_ext, jpeg_pixel_idempotent.
Qed.

(** X5: the YCbCr chroma transform never changes an alpha byte, and it
    leaves every grey pixel (R = G = B) exactly as it is: a grey-scale
    ImageData array passes through unchanged. *)
Theorem psychovisual_keeps_alpha_and_greys (ps : list pixel) :
  (exists qs : list pixel,
      ImageOptimizerService.applyPsychovisualOptimization (unpack ps) = unpack qs /\
      alphas qs = alphas ps) /\
  (Forall grey ps ->
   ImageOptimizerService.applyPsychovisualOptimization (unpack ps) = unpack ps).
Proof.
  split.
  - exists (List.map psychovisual_pixel ps). split; [apply psychovisual_pixels|].
    apply alphas_map. intros [[[r g] b] a]. reflexivity.
  - intros Hgrey. rewrite psychovisual_pixels. f_equal.
    induction Hgrey as [|p ps Hp _ IH]; [reflexivity|].
    cbn [List.map]. rewrite IH. f_equal.
    destruct p as [[[r g] b] a]. destruct Hp as [-> ->].
    apply psychovisual_pixel_grey.
Qed.

Lemma psychovisual_keeps_alpha_and_greys_witness :
  ImageOptimizerService.applyPsychovisualOptimization
    (unpack [rgba 9 9 9 0; rgba 200 200 200 255])
  = unpack [rgba 9 9 9 0; rgba 200 200 200 255].
Proof.
  apply (proj2 (psychovisual_keeps_alpha_and_greys
                  [rgba 9 9 9 0; rgba 200 200 200 255])).
  repeat constructor.
Defined.


(* ===================================================================== *)
(** ** More on the complexity analyzer and the quality selector *)
(* ===================================================================== *)

Section Analyzer.
Import JS U8.

(** The loop variable takes the multiples of 4 below the bound. *)
Lemma step4_spec (bound : Z) (i : nat) :
  In i (step4 bound) <-> (i mod 4 = 0)%nat /\ Z.of_nat i < bound.
Proof.
  unfold step4. rewrite in_map_iff. split.
  - intros (k & <- & Hk). apply in_seq in Hk. split.
    + rewrite Nat.mul_comm. apply Nat.Div0.mod_mul.
    + assert (Hpos : 0 < (bound + 3) / 4) by lia.
      pose proof (Z.div_mod (bound + 3) 4 ltac:(lia)) as Hdm.
      pose proof (Z.mod_pos_bound (bound + 3) 4 ltac:(lia)) as Hb.
      lia.
  - intros [Hmod Hlt]. exists (i / 4)%nat. split.
    + pose proof (Nat.div_mod_eq i 4). lia.
    + apply in_seq.
      pose proof (Nat.div_mod_eq i 4) as Hi.
      pose proof (Z.div_mod (bound + 3) 4 ltac:(lia)) as Hdm.
      pose proof (Z.mod_pos_bound (bound + 3) 4 ltac:(lia)) as Hb.
      assert (0 <= (bound + 3) / 4) by (apply Z.div_pos; lia).
      lia.
Qed.

Lemma unpack_app (ps qs : list pixel) :
  unpack (ps ++ qs) = unpack ps ++ unpack qs.
Proof. unfold unpack. apply flat_map_app. Qed.

Lemma length_uniform (p : pixel) (n : nat) :
  List.length (uniform p n) = (4 * n)%nat.
Proof. unfold uniform. rewrite length_unpack, repeat_length. reflexivity. Qed.

Lemma uniform_split (p : pixel) (k m : nat) :
  uniform p (k + m) = uniform p k ++ uniform p m.
Proof. unfold uniform. rewrite repeat_app. apply unpack_app. Qed.

(** Channel [j] of pixel [k] of a uniform array is channel [j] of the
    pixel. *)
Lemma get_uniform (p : pixel) (n k j : nat) :
  (k < n)%nat ->
  get (uniform p n) (4 * k + j) = get (unpack1 p ++ uniform p (n - k - 1)) j.
Proof.
  intros Hk. replace n with (k + (1 + (n - k - 1)))%nat at 1 by lia.
  rewrite uniform_split, (uniform_split p 1).
  rewrite <- (length_uniform p k). rewrite get_app_r.
  unfold uniform at 1. cbn [repeat unpack flat_map]. rewrite app_nil_r.
  reflexivity.
Qed.

Lemma channel_difference_zero (c : byte) :
  Math_abs (of_Z (Z_of_byte c) - of_Z (Z_of_byte c))%float = 0%float.
Proof.
  apply FloatAxioms.Leibniz.eqb_spec.
  apply (forall_bytes
           (fun c => PrimFloat.Leibniz.eqb
                       (Math_abs (of_Z (Z_of_byte c) - of_Z (Z_of_byte c))%float)
                       0%float)).
  vm_compute. reflexivity.
Qed.

(** On a uniform array an iteration of the scan that compares two pixels
    inside the array adds nothing to either accumulator. *)
Lemma complexity_step_uniform (p : pixel) (n k : nat) :
  (k + 1 < n)%nat ->
  ImageOptimizerService.complexity_step (uniform p n) (4 * k)
    {| ImageOptimizerService.totalVariance := 0;
       ImageOptimizerService.edgeCount := 0 |}
  = {| ImageOptimizerService.totalVariance := 0;
       ImageOptimizerService.edgeCount := 0 |}.
Proof.
  intros Hk. unfold ImageOptimizerService.complexity_step.
  replace (4 * k + 4)%nat with (4 * (k + 1) + 0)%nat by lia.
  replace (4 * k + 5)%nat with (4 * (k + 1) + 1)%nat by lia.
  replace (4 * k + 6)%nat with (4 * (k + 1) + 2)%nat by lia.
  replace (get (uniform p n) (4 * k))
    with (get (uniform p n) (4 * k + 0)) by (rewrite Nat.add_0_r; reflexivity).
  rewrite !get_uniform by lia.
  destruct p as [[[r g] b] a]. cbn [unpack1 app get lookup list_lookup].
  rewrite !channel_difference_zero. reflexivity.
Qed.

Lemma complexity_scan_uniform (p : pixel) (n : nat) :
  for_step4 (U8.length (uniform p n) - 4)
    (ImageOptimizerService.complexity_step (uniform p n))
    {| ImageOptimizerService.totalVariance := 0;
       ImageOptimizerService.edgeCount := 0 |}
  = {| ImageOptimizerService.totalVariance := 0;
       ImageOptimizerService.edgeCount := 0 |}.
Proof.
  unfold for_step4.
  assert (Hin : forall i, In i (step4 (U8.length (uniform p n) - 4)) ->
                          exists k, i = (4 * k)%nat /\ (k + 1 < n)%nat).
  { intros i Hi. apply step4_spec in Hi as [Hmod Hlt].
    unfold U8.length in Hlt. rewrite length_uniform in Hlt.
    exists (i / 4)%nat. pose proof (Nat.div_mod_eq i 4). lia. }
  induction (step4 (U8.length (uniform p n) - 4)) as [|i l IH];
    [reflexivity|].
  cbn [fold_left].
  destruct (Hin i (or_introl eq_refl)) as (k & -> & Hk).
  rewrite complexity_step_uniform by exact Hk.
  apply IH. intros j Hj. apply Hin. right. exact Hj.
Qed.

Lemma score_without_variance_zero (n : nat) :
  (1 <= n <= 100 * 100)%nat -> score_without_variance n = 0%float.
Proof.
  intros Hn. apply FloatAxioms.Leibniz.eqb_spec.
  assert (Hall : forallb (fun n => PrimFloat.Leibniz.eqb
                                     (score_without_variance n) 0%float)
                   (seq 1 (100 * 100)) = true) by (vm_compute; reflexivity).
  rewrite forallb_forall in Hall. apply Hall. apply in_seq. lia.
Qed.

End Analyzer.

Lemma calculateImageComplexity_uniform (p : pixel) (n : nat) :
  (1 <= n <= 100 * 100)%nat ->
  ImageOptimizerService.calculateImageComplexity (uniform p n) = 0%float.
Proof.
  intros Hn. unfold ImageOptimizerService.calculateImageComplexity.
  rewrite complexity_scan_uniform.
  cbn [ImageOptimizerService.totalVariance ImageOptimizerService.edgeCount].
  unfold U8.length. rewrite length_uniform.
  apply (score_without_variance_zero n Hn).
Qed.

(** X7: a region of one colour, of any size from 1 to 10000 pixels (the
    analyzer samples at most 100 x 100), scores exactly 0. *)
Theorem complexity_of_uniform_region (p : pixel) (n : nat) :
  (1 <= n <= 100 * 100)%nat ->
  ImageOptimizerService.calculateImageComplexity (uniform p n) = 0%float.
Proof. apply calculateImageComplexity_uniform. Qed.

Lemma complexity_of_uniform_region_witness :
  ImageOptimizerService.calculateImageComplexity (uniform (rgba 10 200 30 255) 3)
  = 0%float.
Proof. apply complexity_of_uniform_region. lia. Defined.

Section Sampling.
Import JS U8.

Lemma drop_uniform (p : pixel) (n k : nat) :
  drop (4 * k) (uniform p n) = uniform p (n - k).
Proof.
  destruct (Nat.le_gt_cases k n) as [Hle|Hgt].
  - replace n with (k + (n - k))%nat at 1 by lia.
    rewrite uniform_split, <- (length_uniform p k). apply drop_app_length.
  - replace (n - k)%nat with 0%nat by lia.
    apply drop_ge. rewrite length_uniform. lia.
Qed.

Lemma take_uniform (p : pixel) (n k : nat) :
  (k <= n)%nat -> take (4 * k) (uniform p n) = uniform p k.
Proof.
  intros Hle. replace n with (k + (n - k))%nat by lia.
  rewrite uniform_split, <- (length_uniform p k). apply take_app_length.
Qed.

Lemma flat_map_uniform (p : pixel) (a b s : nat) (row : nat -> list byte) :
  (forall y, (s <= y < s + b)%nat -> row y = uniform p a) ->
  flat_map row (seq s b) = uniform p (b * a).
Proof.
  revert s. induction b as [|b IH]; intros s Hrow; [reflexivity|].
  cbn [seq flat_map]. rewrite Hrow by lia. rewrite IH by (intros; apply Hrow; lia).
  replace (S b * a)%nat with (a + b * a)%nat by lia.
  symmetry. apply uniform_split.
Qed.

(** The top-left [sw] x [sh] rectangle of a canvas of one colour is an
    array of one colour. *)
Lemma getImageData_uniform (p : pixel) (w h sw sh : nat) (hp : heap) :
  (1 <= sw <= w)%nat -> (1 <= sh <= h)%nat ->
  getImageData {| cv_width := Z.of_nat w; cv_height := Z.of_nat h;
                  cv_data := uniform p (w * h) |}
    (Z.of_nat sw) (Z.of_nat sh) hp
  = Ok (uniform p (sh * sw)) hp.
Proof.
  intros Hsw Hsh. unfold getImageData.
  destruct (Z.eqb_spec (Z.of_nat sw) 0); [lia|].
  destruct (Z.eqb_spec (Z.of_nat sh) 0); [lia|].
  cbn [orb cv_width cv_data]. unfold ret. f_equal.
  rewrite !Nat2Z.id. apply flat_map_uniform. intros y Hy.
  replace (Z.to_nat (4 * Z.of_nat sw)) with (4 * sw)%nat by lia.
  replace (4 * y * w)%nat with (4 * (y * w))%nat by lia.
  rewrite drop_uniform. apply take_uniform. nia.
Qed.

End Sampling.

(** X8: for a bitmap of one colour, of any positive width and height, the
    automatic quality selection returns 0.75, the lowest of its three
    values, whenever a 2D context is available; the bitmap is left open
    and unchanged. *)
Theorem uniform_image_gets_lowest_quality {Blob} (P : Platform Blob)
    (p : pixel) (w h : nat) (imageData : loc) (hp : heap) :
  (1 <= w)%nat -> (1 <= h)%nat ->
  hp !! imageData = Some (uniform_bitmap p w h) ->
  (forall c, getContext P c = true) ->
  ImageOptimizerService.calculateOptimalQuality P imageData hp
  = Ok 0.75%float hp.
Proof.
  intros Hw Hh Hl Hctx.
  unfold ImageOptimizerService.calculateOptimalQuality, bind, deref.
  rewrite Hl, Hctx. cbn [negb]. unfold drawImage, uniform_bitmap.
  cbn [bm_detached bm_width bm_height bm_data ret new_canvas cv_width cv_height].
  replace (Z.min 100 (Z.of_nat w)) with (Z.of_nat (Nat.min 100 w)) by lia.
  replace (Z.min 100 (Z.of_nat h)) with (Z.of_nat (Nat.min 100 h)) by lia.
  rewrite getImageData_uniform by lia.
  unfold ret. rewrite calculateImageComplexity_uniform; [reflexivity|].
  assert (Nat.min 100 w <= 100)%nat by lia.
  assert (Nat.min 100 h <= 100)%nat by lia.
  assert (1 <= Nat.min 100 w)%nat by lia.
  assert (1 <= Nat.min 100 h)%nat by lia.
  nia.
Qed.

Lemma uniform_image_gets_lowest_quality_witness :
  let bm := uniform_bitmap (rgba 1 2 3 255) 2 3 in
  ImageOptimizerService.calculateOptimalQuality (Fixtures.recorder bm) 0%nat [bm]
  = Ok 0.75%float [bm].
Proof.
  intros bm.
  apply (uniform_image_gets_lowest_quality (Fixtures.recorder bm)
           (rgba 1 2 3 255) 2 3 0%nat [bm]);
    [lia | lia | reflexivity | reflexivity].
Defined.

Lemma calculateOptimalQuality_Ok {Blob} (P : Platform Blob)
    (imageData : loc) (h h' : heap) (q : float) :
  ImageOptimizerService.calculateOptimalQuality P imageData h = Ok q h' ->
  h' = h /\ (q = 0.92%float \/ q = 0.85%float \/ q = 0.75%float).
Proof.
  unfold ImageOptimizerService.calculateOptimalQuality, bind, deref, drawImage,
    getImageData, ret, throw.
  destruct (h !! imageData) as [bm|]; [|discriminate].
  destruct (getContext P _); cbn [negb].
  - destruct (bm_detached bm); [discriminate|].
    destruct (_ || _); [discriminate|].
    intros H. injection H as <- <-. split; [reflexivity|].
    unfold ImageOptimizerService.selectQuality.
    destruct (0.7 <? _)%float; [left; reflexivity|].
    destruct (0.4 <? _)%float; right; [left|right]; reflexivity.
  - intros H. injection H as <- <-. split; [reflexivity|].
    right. left. reflexivity.
Qed.

(** X9: whenever the automatic quality selection returns, its result is one
    of 0.92, 0.85 and 0.75, and it leaves every bitmap as it was (it does
    not close the one it analyses). *)
Theorem calculateOptimalQuality_three_values {Blob} (P : Platform Blob)
    (imageData : loc) (h h' : heap) (q : float) :
  ImageOptimizerService.calculateOptimalQuality P imageData h = Ok q h' ->
  h' = h /\ (q = 0.92%float \/ q = 0.85%float \/ q = 0.75%float).
Proof. apply calculateOptimalQuality_Ok. Qed.

Lemma calculateOptimalQuality_three_values_witness :
  let bm := Fixtures.bitmap 2 1 (bytes [0; 0; 0; 255; 255; 255; 255; 255]) in
  ImageOptimizerService.calculateOptimalQuality (Fixtures.recorder bm) 0%nat [bm]
  = Ok 0.92%float [bm] /\
  ([bm] = [bm] /\
   (0.92%float = 0.92%float \/ 0.92%float = 0.85%float \/ 0.92%float = 0.75%float)).
Proof.
  intros bm.
  assert (Hrun : ImageOptimizerService.calculateOptimalQuality
                   (Fixtures.recorder bm) 0%nat [bm] = Ok 0.92%float [bm])
    by (vm_compute; reflexivity).
  split; [exact Hrun|].
  exact (calculateOptimalQuality_three_values (Fixtures.recorder bm) 0%nat
           [bm] [bm] 0.92%float Hrun).
Defined.

(** X10: the quality selector is monotone: a score that is at least as
    high never selects a lower quality. *)
Theorem selectQuality_monotone (s1 s2 : float) :
  (s1 <=? s2)%float = true ->
  (ImageOptimizerService.selectQuality s1
   <=? ImageOptimizerService.selectQuality s2)%float = true.
Proof.
  intros Hle. unfold ImageOptimizerService.selectQuality.
  destruct (0.7 <? s1)%float eqn:H7.
  - rewrite (ltb_leb_trans _ _ _ H7 Hle). reflexivity.
  - destruct (0.4 <? s1)%float eqn:H4.
    + rewrite (ltb_leb_trans _ _ _ H4 Hle).
      destruct (0.7 <? s2)%float; reflexivity.
    + destruct (0.7 <? s2)%float; [reflexivity|].
      destruct (0.4 <? s2)%float; reflexivity.
Qed.

Lemma selectQuality_monotone_witness :
  (ImageOptimizerService.selectQuality 0.3
   <=? ImageOptimizerService.selectQuality 0.8)%float = true.
Proof. apply selectQuality_monotone. reflexivity. Defined.

(* ===================================================================== *)
(** ** More on validation and the strategy factory *)
(* ===================================================================== *)

Section FileNames.
Import JS.

Lemma lower_ascii_not_upper (c : ascii) :
  (let n := nat_of_ascii (lower_ascii c) in ((65 <=? n) && (n <=? 90))%nat)
  = false.
Proof. destruct c as [[] [] [] [] [] [] [] []]; reflexivity. Qed.

Lemma toLowerCase_has_no_upper (s : string) : has_upper (toLowerCase s) = false.
Proof.
  induction s as [|c s IH]; [reflexivity|].
  cbn [toLowerCase has_upper]. rewrite IH, orb_false_r.
  apply lower_ascii_not_upper.
Qed.

Lemma mem_string_In (k : string) (l : list string) :
  mem_string k l = true <-> In k l.
Proof.
  unfold mem_string. rewrite existsb_exists. split.
  - intros (x & Hx & Heq). apply String.eqb_eq in Heq. subst x. exact Hx.
  - intros Hk. exists k. split; [exact Hk | apply String.eqb_refl].
Qed.

(** A lower-cased string meets only the two lower-case keys of
    [Object.prototype]. *)
Lemma lower_case_prototype_key (s : string) :
  In (toLowerCase s) Object_prototype_keys ->
  toLowerCase s = "constructor"%string \/ toLowerCase s = "__proto__"%string.
Proof.
  pose proof (toLowerCase_has_no_upper s) as Hup.
  unfold Object_prototype_keys. cbn [In].
  intros H.
  repeat (destruct H as [H|H];
          [first [ left; symmetry; exact H
                 | right; symmetry; exact H
                 | rewrite <- H in Hup; discriminate Hup ]|]).
  contradiction.
Qed.

Lemma split_not_nil (c : ascii) (s : string) : split c s <> [].
Proof.
  destruct s as [|d s]; cbn [split]; [discriminate|].
  destruct (Ascii.eqb d c); [discriminate|].
  destruct (split c s); discriminate.
Qed.

Lemma split_without (c : ascii) (s : string) :
  contains c s = false -> split c s = [s].
Proof.
  induction s as [|d s IH]; [reflexivity|].
  cbn [contains split]. intros H. apply orb_false_elim in H as [Hd Hs].
  rewrite Hd, (IH Hs). reflexivity.
Qed.

Lemma pop_cons_nonempty {A} (x : A) (l : list A) :
  l <> [] -> pop (x :: l) = pop l.
Proof. destruct l; [contradiction | reflexivity]. Qed.

Lemma split_two_segments (c : ascii) (base ext : string) :
  exists seg segs, segs <> [] /\
    split c (base ++ String c ext) = seg :: segs /\
    pop (seg :: segs) = pop (split c ext).
Proof.
  induction base as [|d base (seg & segs & Hne & Hsplit & Hpop)].
  - cbn [String.append split]. rewrite Ascii.eqb_refl.
    exists EmptyString, (split c ext).
    split; [apply split_not_nil|]. split; [reflexivity|].
    apply pop_cons_nonempty, split_not_nil.
  - cbn [String.append split]. rewrite Hsplit.
    destruct (Ascii.eqb d c).
    + exists EmptyString, (seg :: segs).
      split; [discriminate|]. split; [reflexivity|].
      rewrite pop_cons_nonempty by discriminate. exact Hpop.
    + exists (String d seg), segs.
      split; [exact Hne|]. split; [reflexivity|].
      rewrite pop_cons_nonempty by exact Hne.
      rewrite pop_cons_nonempty in Hpop by exact Hne. exact Hpop.
Qed.

(** The extension of [base.ext] is [ext] in lower case, whatever [base]. *)
Lemma extension_of_dotted (base ext : string) :
  contains "." ext = false ->
  ImageProcessorService.extension_of (base ++ String "." ext) = toLowerCase ext.
Proof.
  intros Hext. unfold ImageProcessorService.extension_of.
  destruct (split_two_segments "." base ext) as (seg & segs & _ & -> & ->).
  rewrite (split_without _ _ Hext). reflexivity.
Qed.

Lemma extension_of_undotted (name : string) :
  contains "." name = false ->
  ImageProcessorService.extension_of name = toLowerCase name.
Proof.
  intros Hname. unfold ImageProcessorService.extension_of.
  rewrite (split_without _ _ Hname). reflexivity.
Qed.

Lemma isValidImage_iff (file : File) :
  ImageProcessorService.isValidImage file = true <->
  startsWith (file_type file) "image/" = true /\
  In (ImageProcessorService.extension_of (file_name file)) accepted_extensions.
Proof.
  unfold ImageProcessorService.isValidImage, js_in.
  destruct (startsWith (file_type file) "image/"); cbn [negb].
  - rewrite orb_true_iff, !mem_string_In. split.
    + intros [Hown|Hproto].
      * split; [reflexivity|]. cbn in Hown. unfold accepted_extensions.
        cbn [In]. tauto.
      * split; [reflexivity|].
        unfold ImageProcessorService.extension_of in *.
        destruct (pop (split "." (file_name file))) as [seg|].
        -- apply lower_case_prototype_key in Hproto as [->| ->];
             unfold accepted_extensions; cbn [In]; tauto.
        -- cbn in Hproto. repeat (destruct Hproto as [Hproto|Hproto];
                                   [discriminate|]). contradiction.
    + intros [_ Hacc]. unfold accepted_extensions in Hacc. cbn [In] in Hacc.
      cbn [List.map fst IMAGE_EXTENSIONS In]. unfold Object_prototype_keys.
      cbn [In]. tauto.
  - split; [discriminate | intros [H _]; discriminate].
Qed.

End FileNames.

(** X11: [isValidImage] returns true exactly when the declared MIME type
    starts with [image/] and the last dot-separated segment of the file
    name, in lower case, is one of jpg, jpeg, png, webp, avif, gif, bmp,
    constructor or __proto__; a file with any other declared type is
    rejected whatever its name. *)
Theorem isValidImage_accepts_exactly (file : File) :
  ImageProcessorService.isValidImage file = true <->
  JS.startsWith (file_type file) "image/" = true /\
  In (ImageProcessorService.extension_of (file_name file)) accepted_extensions.
Proof. apply isValidImage_iff. Qed.

(** X12: the extension test ignores letter case and everything before the
    last dot: a file named [base.ext] with an image MIME type is accepted
    whenever [ext], in lower case, is a supported extension; and a name
    without any dot is taken whole as its own extension. *)
Theorem isValidImage_is_case_insensitive (base ext type : string) :
  contains "." ext = false ->
  JS.startsWith type "image/" = true ->
  In (JS.toLowerCase ext) (List.map fst IMAGE_EXTENSIONS) ->
  ImageProcessorService.isValidImage
    {| file_name := base ++ String "." ext; file_type := type;
       file_size := 0; file_bytes := [] |} = true /\
  ImageProcessorService.isValidImage
    {| file_name := ext; file_type := type;
       file_size := 0; file_bytes := [] |} = true.
Proof.
  intros Hext Htype Hin.
  assert (Hacc : In (JS.toLowerCase ext) accepted_extensions).
  { cbn [List.map fst IMAGE_EXTENSIONS In] in Hin.
    unfold accepted_extensions. cbn [In]. tauto. }
  split; apply isValidImage_iff; cbn [file_name file_type];
    (split; [exact Htype|]).
  - rewrite extension_of_dotted by exact Hext. exact Hacc.
  - rewrite extension_of_undotted by exact Hext. exact Hacc.
Qed.

Lemma isValidImage_is_case_insensitive_witness :
  ImageProcessorService.isValidImage
    {| file_name := "holiday.2024.v2" ++ String "." "JpEg";
       file_type := "image/jpeg"; file_size := 0; file_bytes := [] |} = true /\
  ImageProcessorService.isValidImage
    {| file_name := "JpEg"; file_type := "image/jpeg";
       file_size := 0; file_bytes := [] |} = true.
Proof.
  apply (isValidImage_is_case_insensitive "holiday.2024.v2" "JpEg" "image/jpeg");
    [reflexivity | reflexivity | cbn; tauto].
Defined.

(** X13: the strategy factory, as initialised, has a strategy for every
    format, and the strategy it returns is the one for the format asked;
    registering a strategy makes it the one returned for its format and
    leaves every other format as it was. *)
Theorem factory_lookup {Blob} (P : Platform Blob) (m : strategies Blob)
    (f g : ImageFormat) (s : IConversionStrategy Blob) (h : heap) :
  (exists s0,
      ConversionStrategyFactory.getStrategy
        (ConversionStrategyFactory.initial P) f h = Ok s0 h /\
      strategy_format s0 = f /\ supports s0 f = true /\
      (supports s0 g = true -> g = f)) /\
  ConversionStrategyFactory.isFormatSupported
    (ConversionStrategyFactory.initial P) f = true /\
  ConversionStrategyFactory.getStrategy
    (ConversionStrategyFactory.registerStrategy m f s) f h = Ok s h /\
  (g <> f ->
   ConversionStrategyFactory.getStrategy
     (ConversionStrategyFactory.registerStrategy m f s) g h
   = ConversionStrategyFactory.getStrategy m g h).
Proof.
  split; [|split; [|split]].
  - eexists. split; [reflexivity|].
    destruct f; (split; [reflexivity|]); (split; [reflexivity|]);
      destruct g; cbn; congruence.
  - reflexivity.
  - unfold ConversionStrategyFactory.getStrategy,
      ConversionStrategyFactory.registerStrategy.
    destruct f; reflexivity.
  - intros Hne.
    unfold ConversionStrategyFactory.getStrategy,
      ConversionStrategyFactory.registerStrategy.
    destruct g, f; cbn [format_eqb]; try reflexivity; contradiction.
Qed.

Lemma factory_lookup_witness :
  let P := Fixtures.recorder (Fixtures.bitmap 1 1 []) in
  ConversionStrategyFactory.getStrategy
    (ConversionStrategyFactory.registerStrategy
       (ConversionStrategyFactory.initial P) PNG Fixtures.closing_strategy)
    JPEG []
  = ConversionStrategyFactory.getStrategy
      (ConversionStrategyFactory.initial P) JPEG [].
Proof.
  intros P.
  apply (proj2 (proj2 (proj2
           (factory_lookup P (ConversionStrategyFactory.initial P) PNG JPEG
              Fixtures.closing_strategy [])))).
  discriminate.
Defined.

(* ===================================================================== *)
(** ** More on the pipeline *)
(* ===================================================================== *)

Section PipelineTrace.
Context {Blob : Type}.

Lemma loadImage_Ok (P : Platform Blob) (file : File) (h h1 : heap) (l : loc) :
  ImageProcessorService.loadImage P file h = Ok l h1 ->
  exists bm, createImageBitmap P file = Some bm /\
             l = List.length h /\ h1 = h ++ [bm].
Proof.
  unfold ImageProcessorService.loadImage.
  destruct (createImageBitmap P file) as [bm|]; [|discriminate].
  unfold alloc. intros H. injection H as <- <-. exists bm. repeat split.
Qed.

Lemma shouldResize_Ok (l : loc) (o : ProcessingOptions) (h h1 : heap) (b : bool) :
  ImageProcessorService.shouldResize l o h = Ok b h1 ->
  h1 = h /\ exists bm, h !! l = Some bm /\ b = needs_resize bm o.
Proof.
  unfold ImageProcessorService.shouldResize. intros H.
  apply bind_Ok in H as (bm & h0 & Hd & H).
  apply deref_Ok in Hd as [Hl ->].
  unfold needs_resize.
  destruct (ImageProcessorService.given (maxWidth o)),
           (ImageProcessorService.given (maxHeight o));
    cbn [negb andb orb] in *; injection H as <- <-;
    (split; [reflexivity|]); exists bm; (split; [exact Hl|]);
    rewrite ?orb_false_r; reflexivity.
Qed.

Lemma resizeImage_Ok (P : Platform Blob) (l l2 : loc) (o : ProcessingOptions)
    (h h2 : heap) :
  ImageProcessorService.resizeImage P l o h = Ok l2 h2 ->
  exists bm bm2,
    h !! l = Some bm /\ l2 = List.length h /\ h2 = h ++ [bm2] /\
    (bm_width bm2, bm_height bm2) = resized_size bm o /\
    bm_detached bm2 = false.
Proof.
  unfold ImageProcessorService.resizeImage. intros H.
  apply bind_Ok in H as (bm & h0 & Hd & H).
  apply deref_Ok in Hd as [Hl ->].
  destruct (ImageProcessorService.resizeDimensions (JS.of_Z (bm_width bm))
              (JS.of_Z (bm_height bm)) o) as [newWidth newHeight] eqn:Hdims.
  destruct (getContext P _); cbn [negb] in H; [|discriminate].
  destruct (bm_detached bm); [discriminate|].
  destruct (pngRoundTrip P _); [|discriminate].
  unfold alloc in H. injection H as <- <-.
  eexists bm, _. split; [exact Hl|]. split; [reflexivity|].
  split; [reflexivity|]. unfold resized_size. rewrite Hdims.
  split; reflexivity.
Qed.

(** A built-in strategy leaves the heap alone and encodes the bitmap's
    pixels after the pass of its format. *)
Lemma builtin_convert_trace (P : Platform Blob) (f : ImageFormat)
    (s : IConversionStrategy Blob) (l : loc) (q : float) (opt : bool)
    (h h' : heap) (b : Blob) :
  ConversionStrategyFactory.initial P f = Some s ->
  convert s l q opt h = Ok b h' ->
  h' = h /\
  exists bm,
    h !! l = Some bm /\ bm_detached bm = false /\
    toBlob P {| cv_width := bm_width bm; cv_height := bm_height bm;
                cv_data := canvas_data f opt (bm_data bm) |}
      f (encoder_quality f q) = Some b.
Proof.
  intros Hs. injection Hs as <-.
  destruct f, opt;
    cbn [convert JpegConversionStrategy.strategy PngConversionStrategy.strategy
           WebpConversionStrategy.strategy AvifConversionStrategy.strategy
           GifConversionStrategy.strategy BmpConversionStrategy.strategy
           encoder_quality canvas_data];
    unfold BaseConversionStrategy.convert, PngConversionStrategy.convert,
      AvifConversionStrategy.convert, AvifConversionStrategy.prepare,
      GifConversionStrategy.convert, BmpConversionStrategy.convert,
      BaseConversionStrategy.canvasToBlob,
      JpegConversionStrategy.applyOptimization,
      BaseConversionStrategy.applyOptimization,
      PngConversionStrategy.applyPngOptimization,
      WebpConversionStrategy.applyOptimization,
      AvifConversionStrategy.applyOptimization,
      update_image_data, drawImage, deref, bind, throw, ret;
    cbn [cv_width cv_height cv_data BaseConversionStrategy.createCanvas
           new_canvas];
    (destruct (h !! l) as [bm|]; [|discriminate]);
    (destruct (getContext P _); cbn [negb]; [|discriminate]);
    (destruct (bm_detached bm) eqn:Hdet; [discriminate|]);
    repeat (cbn [cv_width cv_height cv_data];
            match goal with
            | |- context [(bm_width bm =? 0) || (bm_height bm =? 0)] =>
                destruct ((bm_width bm =? 0) || (bm_height bm =? 0));
                [discriminate|]
            end);
    cbn [cv_width cv_height cv_data];
    match goal with
    | |- context [toBlob P ?c ?g ?q'] =>
        destruct (toBlob P c g q') as [b'|] eqn:Hblob; [|discriminate]
    end;
    intros H; injection H as <- <-;
    (split; [reflexivity|]); exists bm;
    (split; [reflexivity|]); (split; [exact Hdet|]); exact Hblob.
Qed.

End PipelineTrace.

Section ProcessTrace.
Context {Blob : Type}.

Lemma standard_quality_Ok (P : Platform Blob) (optimizer : option IImageOptimizer)
    (options : ProcessingOptions) (l : loc) (h h1 : heap) (q : float) :
  standard_optimizer P optimizer ->
  (if optimize options then
     match optimizer with
     | Some o => calculateOptimalQuality o l
     | None => ret (quality options)
     end
   else ret (quality options)) h = Ok q h1 ->
  h1 = h.
Proof.
  intros [-> | ->]; destruct (optimize options); unfold ret;
    try (intros H; injection H as _ <-; reflexivity).
  cbn [calculateOptimalQuality imageOptimizerService].
  intros H. apply calculateOptimalQuality_Ok in H as [-> _]. reflexivity.
Qed.

Lemma heap_lookup_last (h : heap) (bm : ImageBitmap) :
  ((h ++ [bm]) : heap) !! List.length h = Some bm.
Proof.
  unfold heap in *. rewrite lookup_app_r by lia.
  rewrite Nat.sub_diag. reflexivity.
Qed.

Lemma close_after_load (h : heap) (bm : ImageBitmap) :
  <[ List.length h := closed_bitmap ]> (h ++ [bm]) = h ++ [closed_bitmap].
Proof.
  rewrite insert_app_r_alt by lia. rewrite Nat.sub_diag. reflexivity.
Qed.

Lemma close_after_resize (h : heap) (bm bm2 : ImageBitmap) :
  <[ S (List.length h) := closed_bitmap ]>
    (<[ List.length h := closed_bitmap ]> ((h ++ [bm]) ++ [bm2]))
  = h ++ [closed_bitmap; closed_bitmap].
Proof.
  rewrite <- app_assoc. cbn [app].
  rewrite (insert_app_r_alt h _ (List.length h)) by lia.
  rewrite Nat.sub_diag. cbn [insert list_insert].
  rewrite insert_app_r_alt by lia.
  replace (S (List.length h) - List.length h)%nat with 1%nat by lia.
  reflexivity.
Qed.

(** A successful [process] with the built-in strategies, step by step. *)
Lemma process_trace (P : Platform Blob) (optimizer : option IImageOptimizer)
    (file : File) (options : ProcessingOptions) (h h' : heap)
    (r : ProcessingResult Blob) :
  standard_optimizer P optimizer ->
  ImageProcessorService.process P (ConversionStrategyFactory.initial P)
    optimizer file options h = Ok r h' ->
  exists bm,
    createImageBitmap P file = Some bm /\
    ImageProcessorService.isValidImage file = true /\
    format r = targetFormat options /\
    originalSize r = file_size file /\
    processedSize r = blob_size P (blob r) /\
    (width r, height r)
    = (if needs_resize bm options then resized_size bm options
       else (bm_width bm, bm_height bm)) /\
    h' = h ++ repeat closed_bitmap (if needs_resize bm options then 2 else 1).
Proof.
  intros Hstd. unfold ImageProcessorService.process. intros H.
  apply bind_Ok in H as (pre & h3 & Hpre & Hconv).
  unfold ImageProcessorService.process_prepare in Hpre.
  destruct (ImageProcessorService.isValidImage file) eqn:Hvalid;
    cbn [negb] in Hpre; [|discriminate].
  apply bind_Ok in Hpre as (l0 & h1 & Hload & Hpre).
  apply loadImage_Ok in Hload as (bm & Hbm & -> & ->).
  apply bind_Ok in Hpre as (resize & h1' & Hshould & Hpre).
  apply shouldResize_Ok in Hshould as (-> & bm' & Hl0 & ->).
  rewrite heap_lookup_last in Hl0. injection Hl0 as <-.
  apply bind_Ok in Hpre as (l2 & h2 & Hresize & Hpre).
  apply bind_Ok in Hpre as (s & h2' & Hs & Hpre).
  unfold ConversionStrategyFactory.getStrategy in Hs.
  destruct (ConversionStrategyFactory.initial P (targetFormat options))
    as [s0|] eqn:Hinit; [|discriminate].
  injection Hs as <- <-.
  apply bind_Ok in Hpre as (q & h2'' & Hq & Hpre).
  apply (standard_quality_Ok P optimizer options l2 h2 h2'' q Hstd) in Hq.
  subst h2''. injection Hpre as <- <-.
  unfold ImageProcessorService.process_convert in Hconv.
  cbn [ImageProcessorService.p_resizedBitmap ImageProcessorService.p_imageBitmap
         ImageProcessorService.p_strategy ImageProcessorService.p_quality]
    in Hconv.
  apply bind_Ok in Hconv as (w & h4 & Hw & Hconv).
  apply width_of_Ok in Hw as (bmw & Hlw & -> & ->).
  apply bind_Ok in Hconv as (w' & h4 & Hh & Hconv).
  apply height_of_Ok in Hh as (bmh & Hlh & -> & ->).
  rewrite Hlw in Hlh. injection Hlh as <-.
  apply bind_Ok in Hconv as (b & h5 & Hc & Hconv).
  apply (builtin_convert_trace P _ _ _ _ _ _ _ _ Hinit) in Hc as [-> _].
  exists bm. split; [exact Hbm|]. split; [reflexivity|].
  destruct (needs_resize bm options).
  - apply resizeImage_Ok in Hresize as (bm0 & bm2 & Hl0 & -> & -> & Hdims & _).
    rewrite heap_lookup_last in Hl0. injection Hl0 as <-.
    rewrite heap_lookup_last in Hlw. injection Hlw as <-.
    rewrite length_app in Hconv. cbn [List.length] in Hconv.
    replace (List.length h + 1)%nat with (S (List.length h)) in Hconv by lia.
    rewrite Nat.eqb_sym in Hconv.
    replace (List.length h =? S (List.length h))%nat with false in Hconv
      by (symmetry; apply Nat.eqb_neq; lia).
    unfold bind, close, ret in Hconv. injection Hconv as <- <-.
    cbn [format originalSize processedSize width height blob].
    repeat split; try reflexivity; [exact Hdims|].
    apply close_after_resize.
  - unfold ret in Hresize. injection Hresize as <- <-.
    rewrite heap_lookup_last in Hlw. injection Hlw as <-.
    rewrite Nat.eqb_refl in Hconv.
    unfold bind, close, ret in Hconv. injection Hconv as <- <-.
    cbn [format originalSize processedSize width height blob].
    repeat split; try reflexivity.
    apply close_after_load.
Qed.

End ProcessTrace.

Section BuiltinConvert.
Context {Blob : Type}.

(** A built-in strategy succeeds on an open, non-empty bitmap whenever the
    platform grants a context and the encoder accepts the canvas. *)
Lemma builtin_convert_succeeds (P : Platform Blob) (f : ImageFormat)
    (s : IConversionStrategy Blob) (l : loc) (q : float) (opt : bool)
    (h : heap) (bm : ImageBitmap) (b : Blob) :
  ConversionStrategyFactory.initial P f = Some s ->
  h !! l = Some bm -> bm_detached bm = false ->
  bm_width bm <> 0 -> bm_height bm <> 0 ->
  (forall c, getContext P c = true) ->
  toBlob P {| cv_width := bm_width bm; cv_height := bm_height bm;
              cv_data := canvas_data f opt (bm_data bm) |}
    f (encoder_quality f q) = Some b ->
  convert s l q opt h = Ok b h.
Proof.
  intros Hs Hl Hdet Hw Hh Hctx Hblob. injection Hs as <-.
  assert (Hne : (bm_width bm =? 0) || (bm_height bm =? 0) = false).
  { destruct (Z.eqb_spec (bm_width bm) 0); [contradiction|].
    destruct (Z.eqb_spec (bm_height bm) 0); [contradiction|]. reflexivity. }
  destruct f, opt;
    cbn [convert JpegConversionStrategy.strategy PngConversionStrategy.strategy
           WebpConversionStrategy.strategy AvifConversionStrategy.strategy
           GifConversionStrategy.strategy BmpConversionStrategy.strategy
           encoder_quality canvas_data] in *;
    unfold BaseConversionStrategy.convert, PngConversionStrategy.convert,
      AvifConversionStrategy.convert, AvifConversionStrategy.prepare,
      GifConversionStrategy.convert, BmpConversionStrategy.convert,
      BaseConversionStrategy.canvasToBlob,
      JpegConversionStrategy.applyOptimization,
      BaseConversionStrategy.applyOptimization,
      PngConversionStrategy.applyPngOptimization,
      WebpConversionStrategy.applyOptimization,
      AvifConversionStrategy.applyOptimization,
      update_image_data, drawImage, deref, bind, throw, ret;
    rewrite Hl, Hctx, Hdet; cbn [negb];
    repeat (cbn [cv_width cv_height cv_data BaseConversionStrategy.createCanvas
                   new_canvas]; rewrite Hne);
    cbn [cv_width cv_height cv_data BaseConversionStrategy.createCanvas
           new_canvas];
    first [ rewrite Hblob; reflexivity
          | unfold JpegConversionStrategy.optimized, png_quantize, webp_quantize
              in Hblob; rewrite Hblob; reflexivity ].
Qed.

End BuiltinConvert.

(** X14: what a built-in strategy does.  If its [convert] returns, it has
    left every bitmap as it was (the one it was given is still open), and
    the blob is the encoder's output for a canvas of the bitmap's size
    holding the bitmap's pixels after the pass of the format (no pass at
    all when optimize is false, and never one for GIF and BMP), at the
    quality the format encodes with.  Conversely it does return on an open
    bitmap of non-zero size when the platform grants a context and the
    encoder accepts that canvas. *)
Theorem builtin_convert_encodes_pass {Blob} (P : Platform Blob) (f : ImageFormat)
    (s : IConversionStrategy Blob) (l : loc) (q : float) (opt : bool)
    (h : heap) :
  ConversionStrategyFactory.initial P f = Some s ->
  (forall b h',
      convert s l q opt h = Ok b h' ->
      h' = h /\
      exists bm,
        h !! l = Some bm /\ bm_detached bm = false /\
        toBlob P {| cv_width := bm_width bm; cv_height := bm_height bm;
                    cv_data := canvas_data f opt (bm_data bm) |}
          f (encoder_quality f q) = Some b) /\
  (forall bm b,
      h !! l = Some bm -> bm_detached bm = false ->
      bm_width bm <> 0 -> bm_height bm <> 0 ->
      (forall c, getContext P c = true) ->
      toBlob P {| cv_width := bm_width bm; cv_height := bm_height bm;
                  cv_data := canvas_data f opt (bm_data bm) |}
        f (encoder_quality f q) = Some b ->
      convert s l q opt h = Ok b h).
Proof.
  intros Hs. split.
  - intros b h'. apply builtin_convert_trace. exact Hs.
  - intros bm b. apply builtin_convert_succeeds. exact Hs.
Qed.

Lemma builtin_convert_encodes_pass_witness :
  let bm := Fixtures.bitmap 1 1 (bytes [10; 20; 30; 128]) in
  let P := Fixtures.recorder bm in
  convert (JpegConversionStrategy.strategy P) 0%nat 0.8 true [bm]
  = Ok {| Fixtures.req_format := JPEG; Fixtures.req_quality := 0.8;
          Fixtures.req_data := bytes [132; 138; 142; 255] |} [bm].
Proof.
  intros bm P.
  apply (proj2 (builtin_convert_encodes_pass P JPEG
                  (JpegConversionStrategy.strategy P) 0%nat 0.8%float true [bm]
                  eq_refl) bm);
    [reflexivity | reflexivity | discriminate | discriminate
    | reflexivity | vm_compute; reflexivity].
Defined.

(** X15: a conversion that succeeds with the built-in strategies leaves no
    bitmap open: the heap it returns is the heap it started from followed
    by the bitmaps it created, one when no limit is exceeded and two when
    the image was resized, all of them closed. *)
Theorem process_closes_its_bitmaps {Blob} (P : Platform Blob)
    (optimizer : option IImageOptimizer) (file : File)
    (options : ProcessingOptions) (h h' : heap) (r : ProcessingResult Blob) :
  standard_optimizer P optimizer ->
  ImageProcessorService.process P (ConversionStrategyFactory.initial P)
    optimizer file options h = Ok r h' ->
  exists bm,
    createImageBitmap P file = Some bm /\
    h' = h ++ repeat closed_bitmap (if needs_resize bm options then 2 else 1).
Proof.
  intros Hstd Hrun.
  destruct (process_trace P optimizer file options h h' r Hstd Hrun)
    as (bm & Hbm & _ & _ & _ & _ & _ & Hheap).
  exists bm. split; assumption.
Qed.


Lemma process_closes_its_bitmaps_witness :
  let bm := Fixtures.bitmap 2 1 (bytes [1; 2; 3; 4; 5; 6; 7; 8]) in
  let P := Fixtures.recorder bm in
  exists r h',
    ImageProcessorService.process P (ConversionStrategyFactory.initial P)
      (Some (imageOptimizerService P)) (Fixtures.file "a.gif" "image/gif")
      (Fixtures.options WEBP 0.5 true (Some 1%float) None) [] = Ok r h' /\
    h' = [closed_bitmap; closed_bitmap].
Proof.
  intros bm P. eexists. eexists. split; [vm_compute; reflexivity|].
  destruct (process_closes_its_bitmaps P (Some (imageOptimizerService P))
              (Fixtures.file "a.gif" "image/gif")
              (Fixtures.options WEBP 0.5 true (Some 1%float) None) []
              [closed_bitmap; closed_bitmap]
              {| blob := {| Fixtures.req_format := WEBP;
                            Fixtures.req_quality := 0.75;
                            Fixtures.req_data := bytes [0; 0; 0; 0] |};
                 format := WEBP; originalSize := 4; processedSize := 4;
                 width := 1; height := 1 |})
    as (bm' & Hbm & Hheap).
  - right. reflexivity.
  - vm_compute. reflexivity.
  - reflexivity.
Defined.


Section ProcessSucceeds.
Context {Blob : Type}.

Lemma shouldResize_run (l : loc) (o : ProcessingOptions) (h : heap)
    (bm : ImageBitmap) :
  h !! l = Some bm ->
  ImageProcessorService.shouldResize l o h = Ok (needs_resize bm o) h.
Proof.
  intros Hl. unfold ImageProcessorService.shouldResize, bind, deref, ret.
  rewrite Hl. unfold needs_resize.
  destruct (ImageProcessorService.given (maxWidth o)),
           (ImageProcessorService.given (maxHeight o));
    cbn [negb andb orb]; rewrite ?orb_false_r; reflexivity.
Qed.

Lemma calculateOptimalQuality_run (P : Platform Blob) (l : loc) (h : heap)
    (bm : ImageBitmap) :
  h !! l = Some bm -> bm_detached bm = false ->
  bm_width bm <> 0 -> bm_height bm <> 0 ->
  exists q, ImageOptimizerService.calculateOptimalQuality P l h = Ok q h.
Proof.
  intros Hl Hdet Hw Hh.
  unfold ImageOptimizerService.calculateOptimalQuality, bind, deref, drawImage,
    getImageData, ret.
  rewrite Hl. destruct (getContext P _); cbn [negb]; [|eexists; reflexivity].
  rewrite Hdet.
  destruct (Z.eqb_spec (Z.min 100 (bm_width bm)) 0); [lia|].
  destruct (Z.eqb_spec (Z.min 100 (bm_height bm)) 0); [lia|].
  cbn [orb]. eexists. reflexivity.
Qed.

Lemma width_of_run (l : loc) (h : heap) (bm : ImageBitmap) :
  h !! l = Some bm -> width_of l h = Ok (bm_width bm) h.
Proof. intros Hl. unfold width_of, bind, deref, ret. rewrite Hl. reflexivity. Qed.

Lemma height_of_run (l : loc) (h : heap) (bm : ImageBitmap) :
  h !! l = Some bm -> height_of l h = Ok (bm_height bm) h.
Proof. intros Hl. unfold height_of, bind, deref, ret. rewrite Hl. reflexivity. Qed.

(** A valid file that decodes to an open, non-empty bitmap exceeding no
    limit is converted, on a platform that always grants a context and
    whose encoder accepts every canvas. *)
Lemma process_run (P : Platform Blob) (optimizer : option IImageOptimizer)
    (file : File) (options : ProcessingOptions) (h : heap) (bm : ImageBitmap) :
  standard_optimizer P optimizer ->
  ImageProcessorService.isValidImage file = true ->
  createImageBitmap P file = Some bm ->
  bm_detached bm = false -> bm_width bm <> 0 -> bm_height bm <> 0 ->
  needs_resize bm options = false ->
  (forall c, getContext P c = true) ->
  (forall c f q, exists b, toBlob P c f q = Some b) ->
  exists r,
    ImageProcessorService.process P (ConversionStrategyFactory.initial P)
      optimizer file options h = Ok r (h ++ [closed_bitmap]) /\
    width r = bm_width bm /\ height r = bm_height bm.
Proof.
  intros Hstd Hvalid Hbm Hdet Hw Hh Hfit Hctx Henc.
  assert (Hq : exists q,
             (if optimize options then
                match optimizer with
                | Some o => calculateOptimalQuality o (List.length h)
                | None => ret (quality options)
                end
              else ret (quality options)) (h ++ [bm]) = Ok q (h ++ [bm])).
  { destruct (optimize options); [|eexists; reflexivity].
    destruct Hstd as [-> | ->]; [eexists; reflexivity|].
    cbn [calculateOptimalQuality imageOptimizerService].
    apply (calculateOptimalQuality_run P _ _ bm);
      [apply heap_lookup_last | assumption..]. }
  destruct Hq as [q Hq].
  destruct (Henc {| cv_width := bm_width bm; cv_height := bm_height bm;
                    cv_data := canvas_data (targetFormat options)
                                 (optimize options) (bm_data bm) |}
              (targetFormat options)
              (encoder_quality (targetFormat options) q)) as [b Hb].
  exists {| blob := b; format := targetFormat options;
            originalSize := file_size file; processedSize := blob_size P b;
            width := bm_width bm; height := bm_height bm |}.
  split; [|split; reflexivity].
  unfold ImageProcessorService.process, ImageProcessorService.process_prepare.
  rewrite Hvalid. cbn [negb].
  unfold bind at 1. unfold bind at 1.
  unfold ImageProcessorService.loadImage. rewrite Hbm. unfold alloc.
  unfold bind at 1.
  rewrite (shouldResize_run _ _ _ bm) by apply heap_lookup_last.
  rewrite Hfit. unfold bind at 1. unfold ret at 1.
  unfold bind at 1. unfold ConversionStrategyFactory.getStrategy, ret at 1.
  cbn [ConversionStrategyFactory.initial].
  unfold bind at 1. rewrite Hq. unfold ret at 1.
  unfold ImageProcessorService.process_convert.
  cbn [ImageProcessorService.p_resizedBitmap ImageProcessorService.p_imageBitmap
         ImageProcessorService.p_strategy ImageProcessorService.p_quality].
  unfold bind at 1.
  rewrite (width_of_run _ _ bm) by apply heap_lookup_last.
  unfold bind at 1.
  rewrite (height_of_run _ _ bm) by apply heap_lookup_last.
  unfold bind at 1.
  rewrite (builtin_convert_succeeds P (targetFormat options) _ _ _ _ _ bm b
             eq_refl (heap_lookup_last h bm) Hdet Hw Hh Hctx Hb).
  rewrite Nat.eqb_refl. unfold bind, close, ret. f_equal.
  apply close_after_load.
Qed.

End ProcessSucceeds.

(** X17: a valid file that decodes to an open bitmap of non-zero size that
    exceeds no given limit is always converted, with the built-in
    strategies and either no optimizer or the standard one, on a platform
    that always grants a 2D context and whose encoder accepts every
    canvas; the result reports the bitmap's own width and height, and the
    bitmap is closed afterwards. *)
Theorem process_succeeds {Blob} (P : Platform Blob)
    (optimizer : option IImageOptimizer)
    (file : File) (options : ProcessingOptions) (h : heap) (bm : ImageBitmap) :
  standard_optimizer P optimizer ->
  ImageProcessorService.isValidImage file = true ->
  createImageBitmap P file = Some bm ->
  bm_detached bm = false -> bm_width bm <> 0 -> bm_height bm <> 0 ->
  needs_resize bm options = false ->
  (forall c, getContext P c = true) ->
  (forall c f q, exists b, toBlob P c f q = Some b) ->
  exists r,
    ImageProcessorService.process P (ConversionStrategyFactory.initial P)
      optimizer file options h = Ok r (h ++ [closed_bitmap]) /\
    width r = bm_width bm /\ height r = bm_height bm.
Proof. apply process_run. Qed.

Lemma process_succeeds_witness :
  let bm := Fixtures.bitmap 2 1 (bytes [1; 2; 3; 4; 5; 6; 7; 8]) in
  let P := Fixtures.recorder bm in
  exists r,
    ImageProcessorService.process P (ConversionStrategyFactory.initial P)
      (Some (imageOptimizerService P)) (Fixtures.file "a.PNG" "image/png")
      (Fixtures.options AVIF 0.5 true (Some 2%float) None) []
    = Ok r ([] ++ [closed_bitmap]) /\
    width r = 2 /\ height r = 1.
Proof.
  intros bm P.
  apply (process_succeeds P (Some (imageOptimizerService P))
           (Fixtures.file "a.PNG" "image/png")
           (Fixtures.options AVIF 0.5 true (Some 2%float) None) [] bm);
    [ right; reflexivity | reflexivity | reflexivity | reflexivity
    | discriminate | discriminate | reflexivity | reflexivity
    | intros c f q; eexists; reflexivity ].
Defined.

(** X18: the order in which [process] fails.  A file that [isValidImage]
    rejects is refused with "Invalid image file" before anything is
    decoded; a valid file that cannot be decoded fails with a message that
    starts with "Failed to load image"; and a target format without a
    registered strategy is only reported, as "Unsupported image format:
    <mime type>", once the file has been validated and decoded. *)
Theorem process_failure_order {Blob} (P : Platform Blob) (m : strategies Blob)
    (optimizer : option IImageOptimizer) (file : File)
    (options : ProcessingOptions) (h : heap) :
  (ImageProcessorService.isValidImage file = false ->
   ImageProcessorService.process P m optimizer file options h
   = Throw "Invalid image file") /\
  (ImageProcessorService.isValidImage file = true ->
   createImageBitmap P file = None ->
   exists msg,
     ImageProcessorService.process P m optimizer file options h = Throw msg /\
     JS.startsWith msg "Failed to load image" = true) /\
  (forall bm,
      ImageProcessorService.isValidImage file = true ->
      createImageBitmap P file = Some bm ->
      needs_resize bm options = false ->
      m (targetFormat options) = None ->
      ImageProcessorService.process P m optimizer file options h
      = Throw ("Unsupported image format: " ++ mime (targetFormat options))).
Proof.
  unfold ImageProcessorService.process, ImageProcessorService.process_prepare.
  split; [|split].
  - intros ->. reflexivity.
  - intros -> Hbm. cbn [negb]. eexists.
    unfold bind, ImageProcessorService.loadImage. rewrite Hbm.
    split; reflexivity.
  - intros bm -> Hbm Hfit Hnone. cbn [negb].
    unfold bind at 1. unfold bind at 1.
    unfold ImageProcessorService.loadImage. rewrite Hbm. unfold alloc.
    unfold bind at 1.
    rewrite (shouldResize_run _ _ _ bm) by apply heap_lookup_last.
    rewrite Hfit. unfold bind at 1. unfold ret at 1.
    unfold bind at 1. unfold ConversionStrategyFactory.getStrategy.
    rewrite Hnone. reflexivity.
Qed.

Lemma process_failure_order_witness :
  let P := Fixtures.recorder (Fixtures.bitmap 1 1 (bytes [1; 2; 3; 4])) in
  ImageProcessorService.process P (fun _ => None) None
    (Fixtures.file "notes.txt" "text/plain")
    (Fixtures.options PNG 0.5 false None None) []
  = Throw "Invalid image file" /\
  ImageProcessorService.process P (fun _ => None) None
    (Fixtures.file "a.png" "image/png")
    (Fixtures.options PNG 0.5 false None None) []
  = Throw "Unsupported image format: image/png".
Proof.
  intros P. split.
  - apply (proj1 (process_failure_order P (fun _ => None) None
                    (Fixtures.file "notes.txt" "text/plain")
                    (Fixtures.options PNG 0.5 false None None) [])).
    reflexivity.
  - apply (proj2 (proj2 (process_failure_order P (fun _ => None) None
                           (Fixtures.file "a.png" "image/png")
                           (Fixtures.options PNG 0.5 false None None) []))
             (Fixtures.bitmap 1 1 (bytes [1; 2; 3; 4])));
      reflexivity.
Defined.

(** X19: [extractMetadata] does not validate the file: whenever the file
    decodes it succeeds, reports the width and height the bitmap had
    before it was closed, and leaves that bitmap closed; it fails only
    when decoding fails.  The format it reports for a name with a
    supported extension is the format of the extension, whatever the
    declared MIME type. *)
Theorem extractMetadata_reads_then_closes {Blob} (P : Platform Blob)
    (file : File) (h : heap) :
  (forall bm,
      createImageBitmap P file = Some bm ->
      ExtractMetadata.extractMetadata P file h
      = Ok {| ExtractMetadata.name := file_name file;
              ExtractMetadata.size := file_size file;
              ExtractMetadata.type := file_type file;
              ExtractMetadata.width := bm_width bm;
              ExtractMetadata.height := bm_height bm;
              ExtractMetadata.format :=
                ExtractMetadata.format_of
                  (ImageProcessorService.extension_of (file_name file)) file |}
           (h ++ [closed_bitmap])) /\
  (createImageBitmap P file = None ->
   exists msg, ExtractMetadata.extractMetadata P file h = Throw msg) /\
  (forall ext f,
      In (ext, f) IMAGE_EXTENSIONS ->
      ExtractMetadata.format_of ext file = ExtractMetadata.Format f).
Proof.
  split; [|split].
  - intros bm Hbm. unfold ExtractMetadata.extractMetadata.
    unfold bind at 1. unfold ImageProcessorService.loadImage. rewrite Hbm.
    unfold alloc. unfold bind at 1.
    rewrite (width_of_run _ _ bm) by apply heap_lookup_last.
    unfold bind at 1.
    rewrite (height_of_run _ _ bm) by apply heap_lookup_last.
    unfold bind, close, ret. f_equal. apply close_after_load.
  - intros Hbm. unfold ExtractMetadata.extractMetadata, bind,
      ImageProcessorService.loadImage. rewrite Hbm. eexists. reflexivity.
  - intros ext f Hin. unfold IMAGE_EXTENSIONS in Hin. cbn [In] in Hin.
    repeat (destruct Hin as [Hin|Hin]; [injection Hin as <- <-; reflexivity|]).
    contradiction.
Qed.

Lemma extractMetadata_reads_then_closes_witness :
  let bm := Fixtures.bitmap 3 2 [] in
  ExtractMetadata.extractMetadata (Fixtures.recorder bm)
    (Fixtures.file "scan.PNG" "application/octet-stream") []
  = Ok {| ExtractMetadata.name := "scan.PNG";
          ExtractMetadata.size := 4;
          ExtractMetadata.type := "application/octet-stream";
          ExtractMetadata.width := 3;
          ExtractMetadata.height := 2;
          ExtractMetadata.format := ExtractMetadata.Format PNG |}
       [closed_bitmap].
Proof.
  intros bm.
  apply (proj1 (extractMetadata_reads_then_closes (Fixtures.recorder bm)
                  (Fixtures.file "scan.PNG" "application/octet-stream") []) bm).
  reflexivity.
Defined.

Section ScoreBound.
Import JS.

Lemma ltb_leb (x y : float) : (x <? y)%float = true -> (x <=? y)%float = true.
Proof.
  rewrite ltb_spec, leb_spec. unfold SFltb, SFleb.
  destruct (SFcompare (Prim2SF x) (Prim2SF y)) as [[]|]; congruence.
Qed.

Lemma SFcompare_defined (a b : spec_float) :
  SFcompare a a <> None -> SFcompare b b <> None -> SFcompare a b <> None.
Proof.
  destruct a as [ | | |s1 m1 e1], b as [ | | |s2 m2 e2]; cbn; congruence.
Qed.

(** Two numbers that are not NaN are comparable. *)
Lemma not_ltb_leb (x y : float) :
  is_nan x = false -> is_nan y = false ->
  (x <? y)%float = false -> (y <=? x)%float = true.
Proof.
  unfold is_nan. rewrite !FloatAxioms.eqb_spec, ltb_spec, leb_spec.
  unfold SFeqb, SFltb, SFleb. intros Hx Hy.
  assert (Hxx : SFcompare (Prim2SF x) (Prim2SF x) <> None)
    by (destruct (SFcompare (Prim2SF x) (Prim2SF x)); [discriminate|discriminate Hx]).
  assert (Hyy : SFcompare (Prim2SF y) (Prim2SF y) <> None)
    by (destruct (SFcompare (Prim2SF y) (Prim2SF y)); [discriminate|discriminate Hy]).
  pose proof (SFcompare_defined _ _ Hxx Hyy) as Hxy.
  rewrite (SFcompare_antisym (Prim2SF x) (Prim2SF y)).
  destruct (SFcompare (Prim2SF x) (Prim2SF y)) as [[]|]; cbn; congruence.
Qed.

Lemma Math_min_1_bound (x : float) :
  is_nan (Math_min 1 x) = true \/ (Math_min 1 x <=? 1)%float = true.
Proof.
  unfold Math_min. change (is_nan 1) with false. cbn [orb].
  destruct (is_nan x) eqn:Hnan; [left; reflexivity|].
  destruct (1 <? x)%float eqn:Hgt; [right; reflexivity|].
  destruct (x <? 1)%float eqn:Hlt; [right; apply ltb_leb, Hlt|].
  change (get_sign 1) with false. cbn iota.
  right. apply not_ltb_leb; [reflexivity | exact Hnan | exact Hgt].
Qed.

End ScoreBound.

(** X20: whatever the array, the complexity score is never above 1: it is
    NaN or at most 1. *)
Theorem complexity_at_most_one (data : list byte) :
  is_nan (ImageOptimizerService.calculateImageComplexity data) = true \/
  (ImageOptimizerService.calculateImageComplexity data <=? 1)%float = true.
Proof.
  unfold ImageOptimizerService.calculateImageComplexity.
  apply Math_min_1_bound.
Qed.

(** X21: [ImageOptimizerService.optimize] has no switch: whenever it
    returns, the blob is the encoder's output, for exactly the format and
    quality it was given, of the bitmap's pixels after the YCbCr chroma
    transform, and the bitmap is left open and unchanged; and it does
    return on an open bitmap of non-zero size when the platform grants a
    context and the encoder accepts that canvas. *)
Theorem optimize_encodes_chroma_transform {Blob} (P : Platform Blob)
    (imageData : loc) (f : ImageFormat) (q : float) (h : heap) :
  (forall b h',
      ImageOptimizerService.optimize P imageData f q h = Ok b h' ->
      h' = h /\
      exists bm,
        h !! imageData = Some bm /\ bm_detached bm = false /\
        toBlob P {| cv_width := bm_width bm; cv_height := bm_height bm;
                    cv_data := ImageOptimizerService.applyPsychovisualOptimization
                                 (bm_data bm) |} f q = Some b) /\
  (forall bm b,
      h !! imageData = Some bm -> bm_detached bm = false ->
      bm_width bm <> 0 -> bm_height bm <> 0 ->
      (forall c, getContext P c = true) ->
      toBlob P {| cv_width := bm_width bm; cv_height := bm_height bm;
                  cv_data := ImageOptimizerService.applyPsychovisualOptimization
                               (bm_data bm) |} f q = Some b ->
      ImageOptimizerService.optimize P imageData f q h = Ok b h).
Proof.
  unfold ImageOptimizerService.optimize, update_image_data, drawImage, deref,
    bind, throw, ret.
  split.
  - intros b h'.
    destruct (h !! imageData) as [bm|]; [|discriminate].
    destruct (getContext P _); cbn [negb]; [|discriminate].
    destruct (bm_detached bm) eqn:Hdet; [discriminate|].
    cbn [cv_width cv_height cv_data new_canvas].
    destruct ((bm_width bm =? 0) || (bm_height bm =? 0)); [discriminate|].
    destruct (toBlob P _ f q) as [b'|] eqn:Hblob; [|discriminate].
    intros H. injection H as <- <-. split; [reflexivity|].
    exists bm. split; [reflexivity|]. split; [exact Hdet | exact Hblob].
  - intros bm b Hl Hdet Hw Hh Hctx Hblob.
    rewrite Hl, Hctx, Hdet. cbn [negb cv_width cv_height cv_data new_canvas].
    destruct (Z.eqb_spec (bm_width bm) 0); [contradiction|].
    destruct (Z.eqb_spec (bm_height bm) 0); [contradiction|].
    cbn [orb]. rewrite Hblob. reflexivity.
Qed.

Lemma optimize_encodes_chroma_transform_witness :
  let bm := Fixtures.bitmap 1 1 (bytes [0; 0; 20; 77]) in
  ImageOptimizerService.optimize (Fixtures.recorder bm) 0%nat PNG 0.33 [bm]
  = Ok {| Fixtures.req_format := PNG; Fixtures.req_quality := 0.33;
          Fixtures.req_data := bytes [2; 0; 24; 77] |} [bm].
Proof.
  intros bm.
  apply (proj2 (optimize_encodes_chroma_transform (Fixtures.recorder bm)
                  0%nat PNG 0.33%float [bm]) bm);
    [reflexivity | reflexivity | discriminate | discriminate
    | reflexivity | vm_compute; reflexivity].
Defined.

Lemma isValidImage_accepts_exactly_witness :
  ImageProcessorService.isValidImage (Fixtures.file "a.b.WebP" "image/webp")
  = true.
Proof.
  apply (proj2 (isValidImage_accepts_exactly
                  (Fixtures.file "a.b.WebP" "image/webp"))).
  split; [reflexivity|]. vm_compute. tauto.
Defined.
